(** * ghana_vis: the World Bank dashboard of [ghana_graphics.py]

    A shallow embedding of the three stages of the script

    - [fetch_worldbank_data] (lines 57-65): one HTTP GET, the shape test on
      the parsed body, the frame built from the data array and the two
      stamped columns;
    - the download stage (lines 71-81): the double loop over
      [INDICATORS] and the two countries, [pd.concat], the coercion of the
      [date] column and [sort_values];
    - the selection and chart stage (lines 83-141): the per-country views,
      the filter on the selected indicator code, the shared y-axis bound
      and the [df_combined.empty] test.

    Python exceptions are values of [exn] threaded through the [Raises]
    monad.  A pandas frame is a set of column names together with its rows
    in order; a row is a finite map from column name to JSON cell, a cell
    that is absent or [JNull] being the frame's missing value (None/NaN).
    Numbers are rationals: they stand for the finite doubles the JSON
    parser produces, on which comparison agrees with the rationals. *)

From Stdlib Require Import QArith Qminmax Sorted.
From stdpp Require Import base option list sorting gmap strings.

Local Open Scope string_scope.
Local Open Scope list_scope.

(** ** JSON values, as [response.json()] returns them *)

#[warnings="-register-all"]
Inductive json : Type :=
| JNull
| JBool (b : bool)
| JNum (q : Q)
| JStr (s : string)
| JArr (items : list json)
| JObj (fields : list (string * json)).

(** ** Exceptions and the error monad *)

Inductive exn : Type :=
| ConnectionError              (* requests.get could not reach the server *)
| JSONDecodeError              (* response.json() on a body that is not JSON *)
| ValueError (msg : string)
| KeyError (key : string)
| OutsideFragment (what : string).

Inductive Raises (A : Type) : Type :=
| OK (a : A)
| Raise (e : exn).
Arguments OK {A} a.
Arguments Raise {A} e.

#[global] Instance Raises_ret : MRet Raises := fun _ a => OK a.
#[global] Instance Raises_bind : MBind Raises := fun _ _ f m =>
  match m with
  | OK a => f a
  | Raise e => Raise e
  end.

(** [for x in xs: body], with the loop state passed explicitly. *)
Fixpoint for_each {X S : Type} (xs : list X) (body : X -> S -> Raises S) (s : S)
  : Raises S :=
  match xs with
  | [] => OK s
  | x :: xs' => s' ← body x s; for_each xs' body s'
  end.

(** ** Frames *)

Record DataFrame : Type := mkFrame {
  columns : gset string;
  rows : list (gmap string json)
}.

(** The cell of a row under a column; absent keys read as the missing value. *)
Definition cell (r : gmap string json) (c : string) : json :=
  default JNull (r !! c).

(** [pd.DataFrame()] *)
Definition no_frame : DataFrame := mkFrame ∅ [].

(** A JSON object as a Python dict: a repeated key keeps its last value. *)
Definition dict_of (fields : list (string * json)) : gmap string json :=
  list_to_map (reverse fields).

Definition keys_of (fields : list (string * json)) : gset string :=
  list_to_set (fields.*1).

(** [pd.DataFrame(records)] for a list of dicts: one row per dict, the
    columns being the union of their keys. *)
Definition frame_of_records (recs : list (list (string * json))) : DataFrame :=
  mkFrame (⋃ (keys_of <$> recs)) (dict_of <$> recs).

Definition as_record (j : json) : option (list (string * json)) :=
  match j with
  | JObj fields => Some fields
  | _ => None
  end.

(** [pd.DataFrame(payload)].  The modelled fragment is the payload the
    statistics API sends: [null] (no observations) or an array of objects.
    Any other payload stops the model with [OutsideFragment] instead of
    guessing what pandas builds from it. *)
Definition pd_DataFrame (payload : json) : Raises DataFrame :=
  match payload with
  | JNull => OK no_frame
  | JArr items =>
      match mapM as_record items with
      | Some recs => OK (frame_of_records recs)
      | None => Raise (OutsideFragment "DataFrame(list with a non-object element)")
      end
  | _ => Raise (OutsideFragment "DataFrame(scalar or object)")
  end.

(** [df[c] = v] for a scalar [v]: every row gets [v] under [c], replacing
    whatever the row held there. *)
Definition assign (c : string) (v : json) (df : DataFrame) : DataFrame :=
  mkFrame ({[c]} ∪ columns df) (<[c := v]> <$> rows df).

(** [df.empty]: one of the two axes has length 0. *)
Definition empty (df : DataFrame) : bool :=
  bool_decide (columns df = ∅) || bool_decide (rows df = []).

(** [df[c]]: the column as a list of cells, [KeyError] for an unknown name. *)
Definition column (c : string) (df : DataFrame) : Raises (list json) :=
  if bool_decide (c ∈ columns df) then OK ((λ r, cell r c) <$> rows df)
  else Raise (KeyError c).

(** [pd.concat(dfs)] followed by [reset_index(drop=True)]: rows in list
    order under the union of the columns; an empty list is refused. *)
Definition concat (dfs : list DataFrame) : Raises DataFrame :=
  match dfs with
  | [] => Raise (ValueError "No objects to concatenate")
  | _ => OK (mkFrame (⋃ (columns <$> dfs)) (dfs ≫= rows))
  end.

(** ** Configuration (lines 15-50) *)

Definition COUNTRY_GH : string := "GHA".
Definition COUNTRY_US : string := "USA".

Definition INDICATORS : list (string * string) :=
  [ ("Child Anemia (% of children under 5)", "SH.ANM.CHLD.ZS");
    ("Population with Safe Drinking Water (%)", "SH.H2O.SMDW.ZS");
    ("Secondary Enrollment (% gross, both genders)", "SE.SEC.ENRR");
    ("Educational attainment (Bachelor's or equivalent) (%)", "SE.TER.CUAT.BA.ZS");
    ("GDP per Capita (USD)", "NY.GDP.PCAP.CD") ].

(** [d[k]] on a dict written as its list of items. *)
Fixpoint getitem {V : Type} (d : list (string * V)) (k : string) : Raises V :=
  match d with
  | [] => Raise (KeyError k)
  | (k', v) :: d' => if bool_decide (k' = k) then OK v else getitem d' k
  end.

(** ** The HTTP exchange *)

(** What [requests.get(url).json()] can do: [requests.get] raises, or a
    reply arrives whose body parses as JSON or does not.  The status code is
    carried along; the script never reads it. *)
Inductive http_outcome : Type :=
| Unreachable
| Replied (status : Z) (body : option json).

Definition worldbank_url (country code : string) : string :=
  "https://api.worldbank.org/v2/country/" +:+ country +:+ "/indicator/" +:+ code
    +:+ "?format=json&per_page=2000".

Definition get_json (requests_get : string -> http_outcome) (url : string)
  : Raises json :=
  match requests_get url with
  | Unreachable => Raise ConnectionError
  | Replied _ None => Raise JSONDecodeError
  | Replied _ (Some j) => OK j
  end.

(** [isinstance(x, list)], [len(x)] and [x[i]] on a parsed JSON value; the
    script reaches the last two on lists only. *)
Definition isinstance_list (j : json) : bool :=
  match j with
  | JArr _ => true
  | _ => false
  end.

Definition len (j : json) : nat :=
  match j with
  | JArr items => length items
  | _ => 0
  end.

Definition item (j : json) (i : nat) : Raises json :=
  match j with
  | JArr items =>
      match items !! i with
      | Some x => OK x
      | None => Raise (OutsideFragment "IndexError")
      end
  | _ => Raise (OutsideFragment "subscript of a non-list")
  end.

(** ** fetch_worldbank_data (lines 57-65) *)

Definition fetch_worldbank_data (requests_get : string -> http_outcome)
    (country code : string) : Raises DataFrame :=
  response ← get_json requests_get (worldbank_url country code);
  if negb (isinstance_list response) || bool_decide (len response < 2)
  then OK no_frame
  else
    payload ← item response 1;
    df ← pd_DataFrame payload;
    let df := assign "indicator_code" (JStr code) df in
    let df := assign "country" (JStr country) df in
    OK df.

(** ** The parts of pandas and numpy the script leaves to their defaults

    [pd.to_numeric] needs a reading of strings as numbers, and
    [sort_values] (default [kind='quicksort'], [na_position='last']) hands
    the non-missing keys to numpy's [argsort].  Both are taken through
    their contract: [argsort] returns the positions of its argument
    rearranged so that the keys come out in ascending order.  The order
    among equal keys is not part of that contract (pandas documents
    [mergesort] and [stable] as the only stable kinds). *)

Class Pandas : Type := {
  numeric_of_string : string -> option Q;
  argsort : list Q -> list nat;
  argsort_perm : forall ks, argsort ks ≡ₚ seq 0 (length ks);
  argsort_sorted : forall ks, Sorted Qle ((fun i => nth i ks 0%Q) <$> argsort ks)
}.

(** [pd.to_numeric(col, errors="coerce")] on one cell, as pandas documents
    it: numbers stay (a boolean is the number 1 or 0), a string is parsed,
    and whatever cannot be read as a number becomes the missing value
    instead of raising. *)
Definition to_numeric `{Pandas} (j : json) : json :=
  match j with
  | JNum q => JNum q
  | JBool b => JNum (if b then 1 else 0)
  | JStr s =>
      match numeric_of_string s with
      | Some q => JNum q
      | None => JNull
      end
  | _ => JNull
  end.

(** The numeric reading of a cell of a numeric column; [None] is NaN. *)
Definition number (j : json) : option Q :=
  match j with
  | JNum q => Some q
  | _ => None
  end.

(** [df[c] = values] for a column of the frame's own length. *)
Definition assign_column (c : string) (vals : list json) (df : DataFrame)
  : DataFrame :=
  mkFrame ({[c]} ∪ columns df) (zip_with (fun r v => <[c := v]> r) (rows df) vals).

(** The positions of the keys that are numbers, with their key, and the
    positions of the missing ones, both in frame order. *)
Definition non_nans (keys : list (option Q)) : list (nat * Q) :=
  omap (fun p => pair p.1 <$> p.2) (zip (seq 0 (length keys)) keys).

Definition nan_idx (keys : list (option Q)) : list nat :=
  omap (fun p => match p.2 with None => Some p.1 | Some _ => None end)
       (zip (seq 0 (length keys)) keys).

(** pandas' [nargsort] with [ascending=True, na_position="last"]: the
    non-missing keys are argsorted, the missing ones follow. *)
Definition nargsort `{Pandas} (keys : list (option Q)) : list nat :=
  let present := non_nans keys in
  ((fun j => nth j present.*1 0%nat) <$> argsort present.*2) ++ nan_idx keys.

(** [df.take(indexer)] on the rows. *)
Definition take_rows {A : Type} (l : list A) (indexer : list nat) : list A :=
  omap (fun i => l !! i) indexer.

(** [df.sort_values(c)] on a numeric column. *)
Definition sort_values `{Pandas} (c : string) (df : DataFrame) : Raises DataFrame :=
  keys ← column c df;
  OK (mkFrame (columns df) (take_rows (rows df) (nargsort (number <$> keys)))).

(** ** The download stage (lines 71-81) *)

Section Download.
Context `{Pandas}.
Variable fetch : string -> string -> Raises DataFrame.

(** Lines 74-77, the body of the inner loop. *)
Definition download_one (label code country : string) (dfs : list DataFrame)
  : Raises (list DataFrame) :=
  df ← fetch country code;
  if negb (empty df)
  then OK (dfs ++ [assign "indicator_label" (JStr label) df])
  else OK dfs.

(** Lines 71-77. *)
Definition download_all (indicators : list (string * string))
    (countries : list string) : Raises (list DataFrame) :=
  for_each indicators
    (fun item dfs =>
       for_each countries (download_one item.1 item.2) dfs)
    [].

(** Lines 71-81. *)
Definition build (indicators : list (string * string))
    (countries : list string) : Raises DataFrame :=
  dfs ← download_all indicators countries;
  data ← concat dfs;
  dates ← column "date" data;
  let data := assign_column "date" (to_numeric <$> dates) data in
  sort_values "date" data.
End Download.

(** The module-level [data] of the script. *)
Definition data `{Pandas} (requests_get : string -> http_outcome) : Raises DataFrame :=
  build (fetch_worldbank_data requests_get) INDICATORS [COUNTRY_GH; COUNTRY_US].

(** ** The selection and chart stage (lines 83-141) *)

Definition indicator_description : list (string * string) :=
  [ ("Child Anemia (% of children under 5)",
     "This shows the prevalence of anemia among young children, often linked to iron and nutrient deficiencies. For a dietetics partnership, it highlights areas where interventions and research could make a tangible impact on child nutrition and public health in Ghana.");
    ("Population with Safe Drinking Water (%)",
     "Access to safe drinking water is essential for proper nutrition and health. This indicator helps the partnership identify opportunities for combined water and nutrition education programs and community interventions.");
    ("Secondary Enrollment (% gross, both genders)",
     "Secondary enrollment (% gross) shows the total number of students enrolled in secondary education as a percentage of the population in the official secondary‑school age group. It allows for fair comparison between Ghana and the USA and indicates the strength of the student pipeline for dietetics programs.");
    ("Educational attainment (Bachelor's or equivalent) (%)",
     "This metric shows the proportion of adults who have completed tertiary education (education beyond high school). It indicates the pool of potential students and collaborators for research, internships, and joint curriculum development in dietetics.");
    ("GDP per Capita (USD)",
     "GDP per capita provides economic context that can affect program funding, access to food resources, and sustainability. Understanding economic conditions helps design realistic and effective nutrition interventions and educational programs.") ].

(** [cell == v] for a Python string [v]. *)
Definition eq_str (v : string) (j : json) : bool :=
  match j with
  | JStr s => bool_decide (s = v)
  | _ => false
  end.

(** [df[df[c] == v]] *)
Definition where_eq (c v : string) (df : DataFrame) : Raises DataFrame :=
  _ ← column c df;
  OK (mkFrame (columns df) (filter (fun r => eq_str v (cell r c)) (rows df))).

Definition isna (j : json) : bool :=
  match j with
  | JNull => true
  | _ => false
  end.

(** [Series.dropna()] *)
Definition dropna (col : list json) : list json :=
  filter (fun j => negb (isna j)) col.

Definition max_list (qs : list Q) : option Q :=
  foldr (fun q acc => Some (from_option (Qmax q) q acc)) None qs.

(** [Series.max()] on a column without missing values: the largest number,
    NaN ([None]) for the empty column.  A column holding anything but
    numbers is not a column of observation values and stops the model. *)
Definition series_max (col : list json) : Raises (option Q) :=
  match mapM number col with
  | Some qs => OK (max_list qs)
  | None => Raise (OutsideFragment "max of a non-numeric column")
  end.

(** The figure [px.line] is asked for, with the y-axis range set after. *)
Record Figure : Type := mkFigure {
  data_frame : DataFrame;
  x : string;
  y : string;
  color : string;
  title : string;
  labels : list (string * string);
  yaxis_range : Q * option Q
}.

Inductive RenderResult : Type :=
| NoData                                  (* st.warning, line 123 *)
| Chart (fig : Figure) (about : string).  (* lines 125-141 *)

(** Lines 83-84 and 109-112: the two per-country views of the rows of the
    selected indicator. *)
Definition selection (data : DataFrame) (selected_label : string)
  : Raises (DataFrame * DataFrame) :=
  ghana ← where_eq "country" COUNTRY_GH data;
  usa ← where_eq "country" COUNTRY_US data;
  selected_code ← getitem INDICATORS selected_label;
  df_gh_sel ← where_eq "indicator_code" selected_code ghana;
  df_us_sel ← where_eq "indicator_code" selected_code usa;
  OK (df_gh_sel, df_us_sel).

(** Lines 83-141. *)
Definition render (data : DataFrame) (selected_label : string) : Raises RenderResult :=
  sel ← selection data selected_label;
  df_combined ← concat [sel.1; sel.2];
  values ← column "value" df_combined;
  max_y_combined ← series_max (dropna values);
  if empty df_combined then OK NoData
  else
    let fig := {|
      data_frame := df_combined;
      x := "date";
      y := "value";
      color := "country";
      title := selected_label +:+ ": Ghana vs USA";
      labels := [("date", "Year"); ("value", selected_label); ("country", "Country")];
      yaxis_range := (0%Q, max_y_combined)
    |} in
    about ← getitem indicator_description selected_label;
    OK (Chart fig about).

(** ** Two sorting routines that meet the contract of [argsort]

    Both run a merge sort on the keys paired with their positions.  The
    first breaks ties by ascending position and is the stable sort; the
    second breaks them by descending position. *)

Definition Qltb (a b : Q) : bool := negb (Qle_bool b a).

Definition by_key_then_position (p1 p2 : nat * Q) : Prop :=
  Qltb p1.2 p2.2 || (Qle_bool p1.2 p2.2 && (p1.1 <=? p2.1)%nat).

Definition by_key_then_reverse_position (p1 p2 : nat * Q) : Prop :=
  Qltb p1.2 p2.2 || (Qle_bool p1.2 p2.2 && (p2.1 <=? p1.1)%nat).

Definition argsort_with (R : relation (nat * Q)) `{forall p1 p2, Decision (R p1 p2)}
    (ks : list Q) : list nat :=
  (merge_sort R (zip (seq 0 (length ks)) ks)).*1.

(** Decimal digits only; enough for the years the API sends. *)
Fixpoint digits_value (acc : N) (s : string) : option N :=
  match s with
  | EmptyString => Some acc
  | String a s' =>
      let n := Ascii.N_of_ascii a in
      if ((48 <=? n) && (n <=? 57))%N
      then digits_value (acc * 10 + (n - 48)) s'
      else None
  end.

Definition digits_to_number (s : string) : option Q :=
  match s with
  | EmptyString => None
  | _ => (fun n => inject_Z (Z.of_N n)) <$> digits_value 0 s
  end.

(** ** The vocabulary of the statements *)

(** The calls of the double loop, in the order they are made: indicator
    outer, country inner. *)
Definition calls (indicators : list (string * string)) (countries : list string)
  : list (string * string * string) :=
  item ← indicators; (fun country => (item.1, item.2, country)) <$> countries.

(** What one call contributes to [dfs]: nothing when its frame is empty,
    else the frame with the label stamped. *)
Definition kept (label : string) (df : DataFrame) : list DataFrame :=
  if empty df then [] else [assign "indicator_label" (JStr label) df].

(** [dfs] after the loops, for a family [F] of fetch results. *)
Definition survivors (F : string -> string -> DataFrame)
    (ps : list (string * string * string)) : list DataFrame :=
  p ← ps; kept p.1.1 (F p.2 p.1.2).

(** The row after line 80. *)
Definition coerce_date `{Pandas} (r : gmap string json) : gmap string json :=
  <["date" := to_numeric (cell r "date")]> r.

(** The numeric year of a row of the built table; [None] is the null year. *)
Definition year (r : gmap string json) : option Q := number (cell r "date").

(** A fetcher that agrees with the family [F] on every call made. *)
Definition answers (fetch : string -> string -> Raises DataFrame)
    (F : string -> string -> DataFrame) (ps : list (string * string * string)) : Prop :=
  Forall (fun p => fetch p.2 p.1.2 = OK (F p.2 p.1.2)) ps.

(** The family a fetcher stands for: its result where it returned one. *)
Definition returned (fetch : string -> string -> Raises DataFrame)
  : string -> string -> DataFrame :=
  fun c k => match fetch c k with
             | OK df => df
             | Raise _ => no_frame
             end.

(** The table lines 79-81 make of [dfs]. *)
Definition sorted_table `{Pandas} (dfs : list DataFrame) : DataFrame :=
  let coerced := coerce_date <$> (dfs ≫= rows) in
  mkFrame ({["date"]} ∪ ⋃ (columns <$> dfs))
          (take_rows coerced (nargsort (year <$> coerced))).

(** The tests on a row of the table: it carries the selected label; it is
    a row of the country [country]. *)
Definition labelled (selected_label : string) (r : gmap string json) : bool :=
  eq_str selected_label (cell r "indicator_label").

Definition of_country (country : string) (r : gmap string json) : bool :=
  eq_str country (cell r "country").

(** A record matching the selected label for either configured country. *)
Definition matching (selected_label : string) (r : gmap string json) : bool :=
  labelled selected_label r && (of_country COUNTRY_GH r || of_country COUNTRY_US r).

(** The row pairs a configured label with its code. *)
Definition paired (r : gmap string json) : Prop :=
  exists label code,
    (label, code) ∈ INDICATORS /\
    cell r "indicator_label" = JStr label /\ cell r "indicator_code" = JStr code.

(** The cells an observation has for its value: a number or null. *)
Definition numeric_or_null (j : json) : bool :=
  match j with
  | JNull | JNum _ => true
  | _ => false
  end.

(** [paired], as a test. *)
Definition paired_b (r : gmap string json) : bool :=
  existsb (fun spec => eq_str spec.1 (cell r "indicator_label")
                       && eq_str spec.2 (cell r "indicator_code")) INDICATORS.

(** A table of observation records, as far as the chart stage reads it: the
    columns [country], [indicator_code] and [value] exist, every row pairs
    a configured label with its code, and every value is a number or
    null. *)
Definition is_dataset (d : DataFrame) : bool :=
  bool_decide ("country" ∈ columns d) && bool_decide ("indicator_code" ∈ columns d)
  && bool_decide ("value" ∈ columns d)
  && forallb (fun r => paired_b r && numeric_or_null (cell r "value")) (rows d).

(** The non-null values of some rows. *)
Definition observed (rs : list (gmap string json)) : list Q :=
  omap (fun r => number (cell r "value")) rs.

(** Years in ascending order, the null years last. *)
Definition ascending_nulls_last (ks : list (option Q)) : Prop :=
  exists (years : list Q) (n : nat),
    ks = (Some <$> years) ++ replicate n None /\ Sorted Qle years.

(** The rows of the pair [(country, code)]. *)
Definition of_pair (country code : string) (r : gmap string json) : Prop :=
  eq_str country (cell r "country") /\ eq_str code (cell r "indicator_code").

(** The four columns the script writes itself. *)
Definition own_columns : list string :=
  ["indicator_code"; "country"; "indicator_label"; "date"].

(** ** Replies and payloads the statements are tried on *)

(** The error body of the API: a dict, not a list. *)
Definition error_body : json :=
  JObj [("message", JArr [JObj [("error", JStr "...")]])].

(** A payload that embeds its own [country] and [indicator_code]. *)
Definition payload_with_own_stamps : list (list (string * json)) :=
  [ [("country", JObj [("id", JStr "GH"); ("value", JStr "Ghana")]);
     ("indicator_code", JStr "other"); ("date", JStr "2020"); ("value", JNum 5)];
    [("country", JStr "XX"); ("date", JStr "2019"); ("value", JNull)] ].

(** One element of the data array, with the nested [indicator] and
    [country] objects the API embeds. *)
Definition observation (date : string) (value : json) : json :=
  JObj [("indicator", JObj [("id", JStr "SH.ANM.CHLD.ZS")]);
        ("country", JObj [("id", JStr "XX")]);
        ("date", JStr date); ("value", value)].

(** One reply per URL: Ghana's child-anemia series carries a year that is
    not a number and a missing value, the USA's shares two years with
    it, and every other request is answered with the API's error body. *)
Definition sample_get (url : string) : http_outcome :=
  if bool_decide (url = worldbank_url "GHA" "SH.ANM.CHLD.ZS") then
    Replied 200 (Some (JArr [JObj [("page", JNum 1)];
                             JArr [observation "2000" (JNum 7);
                                   observation "1990" (JNum 5);
                                   observation "n/a" JNull]]))
  else if bool_decide (url = worldbank_url "USA" "SH.ANM.CHLD.ZS") then
    Replied 200 (Some (JArr [JObj [("page", JNum 1)];
                             JArr [observation "2000" (JNum 2);
                                   observation "1990" (JNum 1)]]))
  else Replied 200 (Some error_body).

(** Ghana's GDP series holds one year, without a value; nothing else
    answers. *)
Definition null_get (url : string) : http_outcome :=
  if bool_decide (url = worldbank_url "GHA" "NY.GDP.PCAP.CD") then
    Replied 200 (Some (JArr [JObj [("page", JNum 1)];
                             JArr [JObj [("date", JStr "2020"); ("value", JNull)]]]))
  else Replied 200 (Some error_body).

(** The value a computation returned, for computations known to return. *)
Definition returned_value {A : Type} (d : A) (m : Raises A) : A :=
  match m with
  | OK a => a
  | Raise _ => d
  end.

(** [sample_get], except that the USA's child-anemia request does not get
    through. *)
Definition flaky_get (url : string) : http_outcome :=
  if bool_decide (url = worldbank_url "USA" "SH.ANM.CHLD.ZS") then Unreachable
  else sample_get url.

(** Every request is answered with one observation that has a value and no
    date. *)
Definition dateless_get (url : string) : http_outcome :=
  Replied 200 (Some (JArr [JObj [("page", JNum 1)]; JArr [JObj [("value", JNum 3)]]])).

(** The reply of the API for a series without observations. *)
Definition no_observations : json :=
  JArr [JObj [("page", JNum 0); ("total", JNum 0)]; JNull].

(** * Properties *)

(** ** The two sorting routines meet the contract *)

Lemma zip_positions_lookup (ks : list Q) (p : nat * Q) :
  p ∈ zip (seq 0 (length ks)) ks -> ks !! p.1 = Some p.2.
Proof.
  intros Hp. apply elem_of_lookup_zip_with in Hp as (i & a & b & -> & Ha & Hb).
  apply lookup_seq in Ha as [-> _]. exact Hb.
Qed.

Lemma argsort_with_perm (R : relation (nat * Q)) `{forall p1 p2, Decision (R p1 p2)}
    (ks : list Q) :
  argsort_with R ks ≡ₚ seq 0 (length ks).
Proof.
  unfold argsort_with. rewrite merge_sort_Permutation.
  rewrite fst_zip; [done | by rewrite length_seq].
Qed.

Lemma argsort_with_sorted (R : relation (nat * Q)) `{forall p1 p2, Decision (R p1 p2)}
    `{!Total R} (ks : list Q) :
  (forall p1 p2, R p1 p2 -> (p1.2 <= p2.2)%Q) ->
  Sorted Qle ((fun i => nth i ks 0%Q) <$> argsort_with R ks).
Proof.
  intros HR. unfold argsort_with.
  set (l := merge_sort R (zip (seq 0 (length ks)) ks)).
  assert (Hl : Forall (fun p => nth p.1 ks 0%Q = p.2) l).
  { apply Forall_forall. intros p Hp. apply nth_lookup_Some.
    apply zip_positions_lookup. by rewrite <- (merge_sort_Permutation R). }
  rewrite <- list_fmap_compose.
  replace ((fun i => nth i ks 0%Q) ∘ fst <$> l) with (snd <$> l)
    by (symmetry; by apply Forall_fmap_ext).
  apply (Sorted_fmap _ R); [exact HR | by apply Sorted_merge_sort].
Qed.

Lemma Qltb_lt (a b : Q) : Qltb a b = true <-> (a < b)%Q.
Proof.
  unfold Qltb. rewrite negb_true_iff, <- not_true_iff_false, Qle_bool_iff.
  split; [apply Qnot_le_lt | apply Qlt_not_le].
Qed.

Lemma Qle_or_Qltb (a b : Q) : Qle_bool a b = true \/ Qltb b a = true.
Proof. unfold Qltb. destruct (Qle_bool a b); auto. Qed.

#[local] Instance by_key_then_position_dec p1 p2 :
  Decision (by_key_then_position p1 p2).
Proof. unfold by_key_then_position. apply _. Defined.

#[local] Instance by_key_then_reverse_position_dec p1 p2 :
  Decision (by_key_then_reverse_position p1 p2).
Proof. unfold by_key_then_reverse_position. apply _. Defined.

#[local] Instance by_key_then_position_total : Total by_key_then_position.
Proof.
  intros [i a] [j b]. unfold by_key_then_position. simpl.
  destruct (Qle_or_Qltb a b) as [Hab | ->]; [|by auto].
  destruct (Qle_or_Qltb b a) as [Hba | ->]; [|by auto].
  rewrite Hab, Hba. destruct (Nat.le_ge_cases i j) as [Hij | Hij];
    apply Nat.leb_le in Hij; rewrite Hij, !orb_true_r; auto.
Qed.

#[local] Instance by_key_then_reverse_position_total :
  Total by_key_then_reverse_position.
Proof.
  intros [i a] [j b]. unfold by_key_then_reverse_position. simpl.
  destruct (Qle_or_Qltb a b) as [Hab | ->]; [|by auto].
  destruct (Qle_or_Qltb b a) as [Hba | ->]; [|by auto].
  rewrite Hab, Hba. destruct (Nat.le_ge_cases i j) as [Hij | Hij];
    apply Nat.leb_le in Hij; rewrite Hij, !orb_true_r; auto.
Qed.

Lemma by_key_then_position_le p1 p2 :
  by_key_then_position p1 p2 -> (p1.2 <= p2.2)%Q.
Proof.
  unfold by_key_then_position. intros Hp. apply Is_true_true in Hp.
  apply orb_true_iff in Hp as [Hp | Hp].
  - apply Qlt_le_weak. by apply Qltb_lt.
  - apply andb_true_iff in Hp as [Hp _]. by apply Qle_bool_iff.
Qed.

Lemma by_key_then_reverse_position_le p1 p2 :
  by_key_then_reverse_position p1 p2 -> (p1.2 <= p2.2)%Q.
Proof.
  unfold by_key_then_reverse_position. intros Hp. apply Is_true_true in Hp.
  apply orb_true_iff in Hp as [Hp | Hp].
  - apply Qlt_le_weak. by apply Qltb_lt.
  - apply andb_true_iff in Hp as [Hp _]. by apply Qle_bool_iff.
Qed.

(** pandas with a stable sort underneath. *)
Definition pandas_stable : Pandas := {|
  numeric_of_string := digits_to_number;
  argsort := argsort_with by_key_then_position;
  argsort_perm := argsort_with_perm by_key_then_position;
  argsort_sorted := fun ks =>
    argsort_with_sorted by_key_then_position ks by_key_then_position_le
|}.

(** pandas with a sort underneath that returns equal keys in reverse. *)
Definition pandas_reversing : Pandas := {|
  numeric_of_string := digits_to_number;
  argsort := argsort_with by_key_then_reverse_position;
  argsort_perm := argsort_with_perm by_key_then_reverse_position;
  argsort_sorted := fun ks =>
    argsort_with_sorted by_key_then_reverse_position ks
      by_key_then_reverse_position_le
|}.

(** ** fetch_worldbank_data *)

Lemma get_json_replied get url status response :
  get url = Replied status (Some response) -> get_json get url = OK response.
Proof. unfold get_json. by intros ->. Qed.

Lemma mapM_as_record (recs : list (list (string * json))) :
  mapM as_record (JObj <$> recs) = Some recs.
Proof.
  apply mapM_Some. induction recs; constructor; auto.
Qed.

(** The rows of a fetched frame, for a body of the API's shape
    [[meta, [obj, ...]]] (anything may follow the data array). *)
Lemma fetch_rows get country code status meta recs more :
  get (worldbank_url country code)
    = Replied status (Some (JArr (meta :: JArr (JObj <$> recs) :: more))) ->
  fetch_worldbank_data get country code
    = OK (assign "country" (JStr country)
            (assign "indicator_code" (JStr code) (frame_of_records recs))).
Proof.
  intros Hget. unfold fetch_worldbank_data.
  rewrite (get_json_replied _ _ _ _ Hget). cbn -[assign frame_of_records mapM].
  rewrite bool_decide_eq_false_2 by lia.
  cbn -[assign frame_of_records mapM]. by rewrite mapM_as_record.
Qed.

(** Whatever a fetched frame holds, its rows carry the arguments of the
    call under [country] and [indicator_code]. *)
Lemma fetch_stamps get country code df :
  fetch_worldbank_data get country code = OK df ->
  Forall (fun r => r !! "country" = Some (JStr country)
                   /\ r !! "indicator_code" = Some (JStr code)) (rows df).
Proof.
  unfold fetch_worldbank_data. destruct (get_json _ _) as [response|]; [|done].
  cbn -[assign]. destruct (_ || _).
  { intros [= <-]. constructor. }
  destruct (item response 1) as [payload|]; [|done]. cbn -[assign].
  destruct (pd_DataFrame payload) as [df0|]; [|done]. cbn -[assign].
  intros [= <-]. simpl. apply Forall_forall. intros r Hr.
  apply list_elem_of_fmap in Hr as (r1 & -> & Hr1).
  apply list_elem_of_fmap in Hr1 as (r0 & -> & _).
  split; by simplify_map_eq.
Qed.

(** C3.  For a well-formed response, a two-element list whose second
    element is the data array, the fetched frame has exactly one row per
    element of the data array, in the same order; each row holds the
    [country] and [code] arguments of the call under [country] and
    [indicator_code], whatever the payload had there, and the payload's
    own cells under every other column. *)
Theorem fetch_one_row_per_element get country code status meta
    (recs : list (list (string * json))) :
  get (worldbank_url country code)
    = Replied status (Some (JArr [meta; JArr (JObj <$> recs)])) ->
  exists df,
    fetch_worldbank_data get country code = OK df /\
    length (rows df) = length recs /\
    Forall2 (fun fields r =>
               r !! "country" = Some (JStr country) /\
               r !! "indicator_code" = Some (JStr code) /\
               forall c, c <> "country" -> c <> "indicator_code" ->
                         r !! c = dict_of fields !! c)
            recs (rows df).
Proof.
  intros Hget. eexists. split; [by eapply fetch_rows|].
  simpl. split; [by rewrite !length_fmap|].
  rewrite <- !list_fmap_compose. apply Forall2_fmap_r, Forall_Forall2_diag.
  apply Forall_forall. intros fields _. simpl.
  split_and!; [by simplify_map_eq.. |].
  intros c Hc1 Hc2. by rewrite !lookup_insert_ne.
Qed.

Lemma fetch_one_row_per_element_witness :
  exists df,
    fetch_worldbank_data
      (fun _ => Replied 200 (Some (JArr [JObj []; JArr (JObj <$> payload_with_own_stamps)])))
      "GHA" "NY.GDP.PCAP.CD" = OK df /\
    length (rows df) = length payload_with_own_stamps /\
    Forall2 (fun fields r =>
               r !! "country" = Some (JStr "GHA") /\
               r !! "indicator_code" = Some (JStr "NY.GDP.PCAP.CD") /\
               forall c, c <> "country" -> c <> "indicator_code" ->
                         r !! c = dict_of fields !! c)
            payload_with_own_stamps (rows df).
Proof.
  exact (fetch_one_row_per_element
           (fun _ => Replied 200 (Some (JArr [JObj []; JArr (JObj <$> payload_with_own_stamps)])))
           "GHA" "NY.GDP.PCAP.CD" 200 (JObj []) payload_with_own_stamps eq_refl).
Defined.

(** C8.  When the parsed body is not a list, or is a list of fewer than two
    elements, the call returns the empty frame and raises nothing. *)
Theorem fetch_shape_mismatch_is_empty get country code status response :
  get (worldbank_url country code) = Replied status (Some response) ->
  (forall items, response = JArr items -> length items < 2) ->
  exists df,
    fetch_worldbank_data get country code = OK df /\
    rows df = [] /\ empty df = true.
Proof.
  intros Hget Hshape. exists no_frame. split; [|done].
  unfold fetch_worldbank_data. rewrite (get_json_replied _ _ _ _ Hget).
  cbn. destruct response; try done.
  simpl. by rewrite bool_decide_eq_true_2 by eauto.
Qed.

Lemma fetch_shape_mismatch_is_empty_witness :
  exists df,
    fetch_worldbank_data (fun _ => Replied 200 (Some error_body)) "GHA" "SE.SEC.ENRR"
      = OK df /\
    rows df = [] /\ empty df = true.
Proof.
  apply (fetch_shape_mismatch_is_empty _ "GHA" "SE.SEC.ENRR" 200 error_body).
  - reflexivity.
  - intros items Hitems. discriminate Hitems.
Defined.

(** C7, as the script has it.  Only the shape of a parsed body is tested.
    When the server cannot be reached, or the body is not JSON, the call
    raises and returns nothing; the status code is never looked at, so a
    reply is treated as the same reply with status 200, and in particular
    gives the empty frame when its parsed body fails the shape test. *)
Theorem fetch_failure_modes get country code :
  (get (worldbank_url country code) = Unreachable ->
   fetch_worldbank_data get country code = Raise ConnectionError) /\
  (forall status, get (worldbank_url country code) = Replied status None ->
   fetch_worldbank_data get country code = Raise JSONDecodeError) /\
  (forall status response,
     get (worldbank_url country code) = Replied status (Some response) ->
     fetch_worldbank_data get country code
       = fetch_worldbank_data (fun _ => Replied 200 (Some response)) country code /\
     ((forall items, response = JArr items -> length items < 2) ->
      fetch_worldbank_data get country code = OK no_frame)).
Proof.
  unfold fetch_worldbank_data, get_json. split_and!.
  - by intros ->.
  - by intros status ->.
  - intros status response ->. split; [done|].
    intros Hshape. cbn. destruct response; try done.
    simpl. by rewrite bool_decide_eq_true_2 by eauto.
Qed.

Lemma fetch_failure_modes_witness :
  fetch_worldbank_data (fun _ => Unreachable) "USA" "SE.SEC.ENRR"
    = Raise ConnectionError /\
  fetch_worldbank_data (fun _ => Replied 200 None) "USA" "SE.SEC.ENRR"
    = Raise JSONDecodeError /\
  fetch_worldbank_data (fun _ => Replied 502 (Some error_body)) "USA" "SE.SEC.ENRR"
    = OK no_frame.
Proof.
  split_and!.
  - apply (proj1 (fetch_failure_modes (fun _ => Unreachable) "USA" "SE.SEC.ENRR")).
    reflexivity.
  - apply (proj1 (proj2 (fetch_failure_modes (fun _ => Replied 200 None)
                           "USA" "SE.SEC.ENRR")) 200%Z).
    reflexivity.
  - apply (proj2 (proj2 (fetch_failure_modes (fun _ => Replied 502 (Some error_body))
                           "USA" "SE.SEC.ENRR")) 502%Z error_body).
    + reflexivity.
    + intros items Hitems. discriminate Hitems.
Defined.

(** C7 as stated fails in each of its three cases: an unreachable server
    and a body that is not JSON make the call raise, and a reply with a
    non-2xx status and a well-shaped body yields its rows. *)
Lemma fetch_does_not_degrade_to_empty :
  (forall df, fetch_worldbank_data (fun _ => Unreachable) "GHA" "NY.GDP.PCAP.CD"
              <> OK df) /\
  (forall df, fetch_worldbank_data (fun _ => Replied 200 None) "GHA" "NY.GDP.PCAP.CD"
              <> OK df) /\
  (exists df,
     fetch_worldbank_data
       (fun _ => Replied 500
                   (Some (JArr [JObj []; JArr [JObj [("date", JStr "2020"); ("value", JNum 1)]]])))
       "GHA" "NY.GDP.PCAP.CD" = OK df /\
     length (rows df) = 1).
Proof.
  split_and!; [done | done |]. eexists. split; reflexivity.
Qed.

(** ** Reordering rows by an indexer *)

Section TakeRows.
Context {A : Type}.
Implicit Types (l : list A) (indexer : list nat).

Lemma take_rows_app l ix1 ix2 :
  take_rows l (ix1 ++ ix2) = take_rows l ix1 ++ take_rows l ix2.
Proof. apply omap_app. Qed.

Lemma take_rows_seq l : take_rows l (seq 0 (length l)) = l.
Proof.
  induction l as [|x l IH] using rev_ind; [done|].
  rewrite length_app, Nat.add_1_r, seq_S, take_rows_app. simpl.
  rewrite lookup_app_r, Nat.sub_diag by lia.
  simpl. f_equal. etrans; [|exact IH]. apply list_omap_ext, Forall_Forall2_diag.
  apply Forall_forall. intros i Hi. apply elem_of_seq in Hi.
  apply lookup_app_l. lia.
Qed.

Lemma take_rows_perm l indexer :
  indexer ≡ₚ seq 0 (length l) -> take_rows l indexer ≡ₚ l.
Proof.
  intros Hperm. rewrite <- (take_rows_seq l) at 2.
  unfold take_rows. by rewrite Hperm.
Qed.

Lemma elem_of_take_rows l indexer a : a ∈ take_rows l indexer -> a ∈ l.
Proof.
  intros Ha. apply list_elem_of_omap in Ha as (i & _ & Hi).
  by eapply list_elem_of_lookup_2.
Qed.

Lemma take_rows_fmap {B : Type} (f : A -> B) l indexer :
  f <$> take_rows l indexer = take_rows (f <$> l) indexer.
Proof.
  unfold take_rows. induction indexer as [|i ix IH]; [done|].
  csimpl. rewrite list_lookup_fmap. destruct (l !! i); csimpl; by rewrite IH.
Qed.

Lemma take_rows_pointwise {I : Type} (g : I -> A) (pos : I -> nat) l
    (js : list I) :
  Forall (fun j => l !! pos j = Some (g j)) js ->
  take_rows l (pos <$> js) = g <$> js.
Proof.
  unfold take_rows. induction 1 as [|j js Hj _ IH]; [done|].
  csimpl. by rewrite Hj, IH.
Qed.
End TakeRows.

(** ** nargsort *)

Lemma non_nans_lookup (keys : list (option Q)) (p : nat * Q) :
  p ∈ non_nans keys -> keys !! p.1 = Some (Some p.2).
Proof.
  intros Hp. apply list_elem_of_omap in Hp as ([i k] & Hik & Hp).
  apply elem_of_lookup_zip_with in Hik as (j & a & b & [= -> ->] & Ha & Hb).
  apply lookup_seq in Ha as [-> _]. simpl in *.
  destruct b as [q|]; simplify_eq/=. exact Hb.
Qed.

Lemma nan_idx_lookup (keys : list (option Q)) (i : nat) :
  i ∈ nan_idx keys -> keys !! i = Some None.
Proof.
  intros Hi. apply list_elem_of_omap in Hi as ([i' k] & Hik & Hi).
  apply elem_of_lookup_zip_with in Hik as (j & a & b & [= -> ->] & Ha & Hb).
  apply lookup_seq in Ha as [-> _]. simpl in *.
  destruct b as [q|]; simplify_eq/=. exact Hb.
Qed.

(** Every position is either that of a number or that of a missing key. *)
Lemma positions_split (keys : list (option Q)) :
  (non_nans keys).*1 ++ nan_idx keys ≡ₚ seq 0 (length keys).
Proof.
  unfold non_nans, nan_idx. generalize 0%nat as s.
  induction keys as [|k keys IH]; intros s; [done|].
  csimpl. destruct k as [q|]; csimpl.
  - by rewrite IH.
  - by rewrite <- Permutation_middle, IH.
Qed.

Lemma fmap_nth_seq {A : Type} (d : A) (l : list A) :
  (fun j => nth j l d) <$> seq 0 (length l) = l.
Proof.
  apply list_eq. intros i. rewrite list_lookup_fmap.
  destruct (l !! i) as [a|] eqn:Hi.
  - rewrite (proj2 (lookup_seq 0 (length l) i i)); simpl.
    + by rewrite (nth_lookup_Some _ _ _ _ Hi).
    + split; [done|]. by eapply lookup_lt_Some.
  - apply lookup_ge_None in Hi. rewrite (proj2 (lookup_ge_None _ _)); [done|].
    by rewrite length_seq.
Qed.

Section NargsortFacts.
Context `{Pandas}.

Lemma nargsort_perm (keys : list (option Q)) :
  nargsort keys ≡ₚ seq 0 (length keys).
Proof.
  unfold nargsort. rewrite <- positions_split. f_equiv.
  rewrite argsort_perm. rewrite length_fmap, <- (length_fmap fst).
  by rewrite fmap_nth_seq.
Qed.

(** The keys, read in the order of the indexer: the numbers in ascending
    order, then the missing ones. *)
Lemma take_rows_nargsort (keys : list (option Q)) :
  exists (years : list Q) (n : nat),
    take_rows keys (nargsort keys) = (Some <$> years) ++ replicate n None /\
    Sorted Qle years.
Proof.
  set (present := non_nans keys).
  exists ((fun j => nth j present.*2 0%Q) <$> argsort present.*2),
         (length (nan_idx keys)).
  split; [|apply argsort_sorted].
  unfold nargsort. fold present. rewrite take_rows_app. f_equal.
  - rewrite <- list_fmap_compose. apply take_rows_pointwise.
    apply Forall_forall. intros j Hj.
    rewrite argsort_perm in Hj. apply elem_of_seq in Hj as [_ Hj].
    rewrite length_fmap in Hj. simpl in Hj.
    destruct (lookup_lt_is_Some_2 present j Hj) as [p Hp].
    rewrite (nth_lookup_Some present.*1 j 0%nat p.1)
      by (by rewrite list_lookup_fmap, Hp).
    simpl. rewrite (nth_lookup_Some present.*2 j 0%Q p.2)
      by (by rewrite list_lookup_fmap, Hp).
    apply non_nans_lookup. by eapply list_elem_of_lookup_2.
  - rewrite <- (list_fmap_id (nan_idx keys)) at 1.
    rewrite (take_rows_pointwise (fun _ => None) id).
    + generalize (nan_idx keys). intros l.
      induction l as [|? ? IH]; [done|]. csimpl. by rewrite IH.
    + apply Forall_forall. intros i Hi. by apply nan_idx_lookup.
Qed.
End NargsortFacts.

(** ** The download stage *)

Lemma bind_OK {A B : Type} (a : A) (f : A -> Raises B) : OK a ≫= f = f a.
Proof. reflexivity. Qed.

Lemma for_each_cons {X S : Type} (x : X) (xs : list X) (body : X -> S -> Raises S)
    (s : S) :
  for_each (x :: xs) body s = s' ← body x s; for_each xs body s'.
Proof. reflexivity. Qed.

Lemma for_each_app {X S : Type} (xs ys : list X) (body : X -> S -> Raises S) (s : S) :
  for_each (xs ++ ys) body s = s' ← for_each xs body s; for_each ys body s'.
Proof.
  revert s. induction xs as [|x xs IH]; intros s; [done|].
  simpl. destruct (body x s) as [s'|e]; [apply IH | done].
Qed.

Lemma for_each_fmap {X Y S : Type} (f : X -> Y) (xs : list X)
    (body : Y -> S -> Raises S) (s : S) :
  for_each (f <$> xs) body s = for_each xs (fun x => body (f x)) s.
Proof.
  revert s. induction xs as [|x xs IH]; intros s; [done|].
  csimpl. destruct (body (f x) s) as [s'|e]; [apply IH | done].
Qed.

Section DownloadFacts.
Context `{Pandas}.
Implicit Types (fetch : string -> string -> Raises DataFrame)
               (F : string -> string -> DataFrame)
               (ps : list (string * string * string)).

(** The double loop is one loop over [calls]. *)
Lemma download_all_calls fetch indicators countries :
  download_all fetch indicators countries
  = for_each (calls indicators countries)
      (fun p => download_one fetch p.1.1 p.1.2 p.2) [].
Proof.
  unfold download_all, calls. generalize (@nil DataFrame) as dfs.
  induction indicators as [|item inds IH]; intros dfs; [done|].
  csimpl. rewrite for_each_app, for_each_fmap. simpl.
  destruct (for_each countries _ dfs) as [dfs'|e]; [apply IH | done].
Qed.

Lemma download_one_family F label code country dfs :
  download_one (fun c k => OK (F c k)) label code country dfs
  = OK (dfs ++ kept label (F country code)).
Proof.
  unfold download_one, kept. simpl.
  destruct (empty (F country code)); simpl; by rewrite ?app_nil_r.
Qed.

Lemma for_each_download_family F ps dfs :
  for_each ps (fun p => download_one (fun c k => OK (F c k)) p.1.1 p.1.2 p.2) dfs
  = OK (dfs ++ survivors F ps).
Proof.
  revert dfs. induction ps as [|p ps IH]; intros dfs.
  - simpl. by rewrite app_nil_r.
  - rewrite for_each_cons, download_one_family. simpl.
    rewrite IH. unfold survivors. csimpl. by rewrite <- app_assoc.
Qed.

Lemma for_each_download_answers fetch F ps dfs :
  answers fetch F ps ->
  for_each ps (fun p => download_one fetch p.1.1 p.1.2 p.2) dfs
  = for_each ps (fun p => download_one (fun c k => OK (F c k)) p.1.1 p.1.2 p.2) dfs.
Proof.
  intros Hans. revert dfs. induction Hans as [|p ps Hp _ IH]; intros dfs; [done|].
  rewrite !for_each_cons. cbv beta.
  replace (download_one fetch p.1.1 p.1.2 p.2 dfs)
    with (download_one (fun c k => OK (F c k)) p.1.1 p.1.2 p.2 dfs)
    by (unfold download_one; by rewrite Hp).
  destruct (download_one _ _ _ _ dfs) as [dfs'|e]; [apply IH | done].
Qed.

(** If the loops come to their end, no call raised. *)
Lemma for_each_download_OK fetch ps dfs dfs' :
  for_each ps (fun p => download_one fetch p.1.1 p.1.2 p.2) dfs = OK dfs' ->
  answers fetch (returned fetch) ps.
Proof.
  revert dfs. induction ps as [|p ps IH]; intros dfs; [constructor|].
  rewrite for_each_cons. cbv beta.
  destruct (download_one fetch p.1.1 p.1.2 p.2 dfs) as [dfs1|e] eqn:Hone; [|done].
  simpl. intros Hrest. constructor; [|by eapply IH].
  unfold download_one in Hone. unfold returned.
  by destruct (fetch p.2 p.1.2).
Qed.

Lemma download_all_family fetch F indicators countries :
  answers fetch F (calls indicators countries) ->
  download_all fetch indicators countries
  = OK (survivors F (calls indicators countries)).
Proof.
  intros Hans. rewrite download_all_calls.
  rewrite (for_each_download_answers _ F) by done.
  by rewrite for_each_download_family.
Qed.

Lemma download_all_OK fetch indicators countries dfs :
  download_all fetch indicators countries = OK dfs ->
  answers fetch (returned fetch) (calls indicators countries).
Proof. rewrite download_all_calls. apply for_each_download_OK. Qed.

Lemma assign_column_date (df : DataFrame) :
  assign_column "date" (to_numeric <$> ((fun r => cell r "date") <$> rows df)) df
  = mkFrame ({["date"]} ∪ columns df) (coerce_date <$> rows df).
Proof.
  unfold assign_column. f_equal.
  rewrite <- list_fmap_compose, zip_with_fmap_r, zip_with_diag. done.
Qed.

Lemma concat_nonempty (dfs : list DataFrame) :
  dfs <> [] -> concat dfs = OK (mkFrame (⋃ (columns <$> dfs)) (dfs ≫= rows)).
Proof. by destruct dfs. Qed.

Lemma sort_coerced (dfs : list DataFrame) :
  sort_values "date"
    (mkFrame ({["date"]} ∪ ⋃ (columns <$> dfs)) (coerce_date <$> (dfs ≫= rows)))
  = OK (sorted_table dfs).
Proof.
  unfold sort_values, column. cbn [columns rows].
  rewrite bool_decide_eq_true_2 by set_solver.
  rewrite bind_OK. unfold sorted_table, year. by rewrite <- !list_fmap_compose.
Qed.

(** [build], computed: it raises on an empty [dfs] and on a table without
    a [date] column, and otherwise returns [sorted_table]. *)
Lemma build_family fetch F indicators countries :
  answers fetch F (calls indicators countries) ->
  build fetch indicators countries
  = match survivors F (calls indicators countries) with
    | [] => Raise (ValueError "No objects to concatenate")
    | dfs =>
        if bool_decide ("date" ∈ ⋃ (columns <$> dfs))
        then OK (sorted_table dfs)
        else Raise (KeyError "date")
    end.
Proof.
  intros Hans. unfold build. rewrite (download_all_family _ F) by done.
  destruct (survivors F _) as [|df dfs] eqn:Hdfs; [done|].
  rewrite <- Hdfs. assert (Hne : survivors F (calls indicators countries) <> [])
    by (by rewrite Hdfs).
  generalize dependent (survivors F (calls indicators countries)).
  intros l _ Hne. rewrite bind_OK, (concat_nonempty l Hne), bind_OK.
  unfold column at 1. cbn [columns rows].
  case_bool_decide as Hdate; [|done].
  rewrite bind_OK.
  pose proof (assign_column_date (mkFrame (⋃ (columns <$> l)) (l ≫= rows))) as Ha.
  cbn [columns rows] in Ha. rewrite Ha. apply sort_coerced.
Qed.

Lemma build_family_OK fetch F indicators countries :
  answers fetch F (calls indicators countries) ->
  survivors F (calls indicators countries) <> [] ->
  "date" ∈ ⋃ (columns <$> survivors F (calls indicators countries)) ->
  build fetch indicators countries
  = OK (sorted_table (survivors F (calls indicators countries))).
Proof.
  intros Hans Hne Hdate. rewrite (build_family _ F) by done.
  destruct (survivors F _) as [|df dfs]; [done|].
  cbv zeta. by rewrite bool_decide_eq_true_2.
Qed.

Lemma build_OK fetch indicators countries data :
  build fetch indicators countries = OK data ->
  let dfs := survivors (returned fetch) (calls indicators countries) in
  answers fetch (returned fetch) (calls indicators countries) /\
  dfs <> [] /\ "date" ∈ ⋃ (columns <$> dfs) /\ data = sorted_table dfs.
Proof.
  intros Hbuild dfs.
  assert (Hans : answers fetch (returned fetch) (calls indicators countries)).
  { unfold build in Hbuild.
    destruct (download_all fetch indicators countries) as [dfs'|e] eqn:Hdl; [|done].
    by eapply download_all_OK. }
  split; [done|]. rewrite (build_family _ _ _ _ Hans) in Hbuild. fold dfs in Hbuild.
  destruct dfs as [|df dfs']; [done|]. cbv zeta in Hbuild.
  destruct (bool_decide _) eqn:Hdate in Hbuild; [|done].
  apply bool_decide_eq_true_1 in Hdate. by simplify_eq.
Qed.
End DownloadFacts.

(** ** The built table *)

Section BuiltTable.
Context `{Pandas}.
Implicit Types (fetch : string -> string -> Raises DataFrame)
               (F : string -> string -> DataFrame)
               (ps : list (string * string * string))
               (r : gmap string json).

Lemma sorted_table_perm (dfs : list DataFrame) :
  rows (sorted_table dfs) ≡ₚ coerce_date <$> (dfs ≫= rows).
Proof.
  unfold sorted_table. cbn [rows]. apply take_rows_perm.
  rewrite nargsort_perm. by rewrite length_fmap.
Qed.

Lemma sorted_table_years (dfs : list DataFrame) :
  exists (years : list Q) (n : nat),
    year <$> rows (sorted_table dfs) = (Some <$> years) ++ replicate n None /\
    Sorted Qle years.
Proof.
  unfold sorted_table. cbn [rows]. rewrite take_rows_fmap.
  apply take_rows_nargsort.
Qed.

Lemma elem_of_calls indicators countries label code country :
  (label, code, country) ∈ calls indicators countries
  <-> (label, code) ∈ indicators /\ country ∈ countries.
Proof.
  unfold calls. rewrite list_elem_of_bind. split.
  - intros ([l k] & Hp & Hitem). apply list_elem_of_fmap in Hp as (c & [= -> -> ->] & Hc).
    done.
  - intros [Hitem Hc]. exists (label, code). split; [|done].
    apply list_elem_of_fmap. by exists country.
Qed.

Lemma elem_of_survivors F ps df :
  df ∈ survivors F ps <->
  exists p, p ∈ ps /\ empty (F p.2 p.1.2) = false /\
            df = assign "indicator_label" (JStr p.1.1) (F p.2 p.1.2).
Proof.
  unfold survivors. rewrite list_elem_of_bind. unfold kept. split.
  - intros (p & Hdf & Hp). exists p. destruct (empty (F p.2 p.1.2)).
    + by apply elem_of_nil in Hdf.
    + by apply list_elem_of_singleton in Hdf.
  - intros (p & Hp & Hne & ->). exists p. rewrite Hne.
    split; [by apply list_elem_of_singleton | done].
Qed.

Lemma survivors_length F ps :
  length (survivors F ps ≫= rows)
  = sum_list (length ∘ rows <$>
              filter (fun df => empty df = false) ((fun p => F p.2 p.1.2) <$> ps)).
Proof.
  unfold survivors. induction ps as [|p ps IH]; [done|].
  csimpl. rewrite bind_app, length_app, IH. unfold kept.
  destruct (empty (F p.2 p.1.2)) eqn:Hp.
  - by rewrite filter_cons_False by (by rewrite Hp).
  - rewrite filter_cons_True by done. csimpl.
    by rewrite app_nil_r, length_fmap.
Qed.

(** Where a row of the built table comes from. *)
Lemma build_row_origin fetch indicators countries data r :
  build fetch indicators countries = OK data -> r ∈ rows data ->
  exists label code country df r0,
    (label, code) ∈ indicators /\ country ∈ countries /\
    fetch country code = OK df /\ empty df = false /\ r0 ∈ rows df /\
    r = coerce_date (<["indicator_label" := JStr label]> r0).
Proof.
  intros Hbuild Hr. apply build_OK in Hbuild as (Hans & _ & _ & ->).
  rewrite sorted_table_perm in Hr.
  apply list_elem_of_fmap in Hr as (r1 & -> & Hr1).
  apply list_elem_of_bind in Hr1 as (df1 & Hr1 & Hdf1).
  apply elem_of_survivors in Hdf1 as ([[label code] country] & Hp & Hne & ->).
  simpl in *. apply list_elem_of_fmap in Hr1 as (r0 & -> & Hr0).
  exists label, code, country, (returned fetch country code), r0.
  pose proof (proj1 (Forall_forall _ _) Hans _ Hp) as Hfetch. simpl in Hfetch.
  apply elem_of_calls in Hp as [? ?]. done.
Qed.
End BuiltTable.

(** C2.  When every call of the loops returns an empty frame, nothing is
    appended to [dfs] and [pd.concat] refuses the empty list: [build]
    raises [ValueError] where C2 asks for an empty table. *)
Theorem build_all_empty_raises `{Pandas} fetch indicators countries :
  Forall (fun p => exists df, fetch p.2 p.1.2 = OK df /\ empty df = true)
         (calls indicators countries) ->
  build fetch indicators countries
  = Raise (ValueError "No objects to concatenate").
Proof.
  intros Hall.
  assert (Hans : answers fetch (returned fetch) (calls indicators countries)).
  { eapply Forall_impl; [exact Hall|]. intros p (df & Hp & _).
    unfold returned. by rewrite Hp. }
  assert (Hnone : survivors (returned fetch) (calls indicators countries) = []).
  { clear Hans. unfold survivors.
    induction Hall as [|p ps (df & Hp & Hempty) _ IH]; [done|].
    csimpl. rewrite IH. unfold kept, returned. by rewrite Hp, Hempty. }
  by rewrite (build_family _ _ _ _ Hans), Hnone.
Qed.

Lemma build_all_empty_raises_witness :
  @data pandas_stable (fun _ => Replied 200 (Some error_body))
  = Raise (ValueError "No objects to concatenate").
Proof.
  apply (@build_all_empty_raises pandas_stable).
  apply Forall_forall. intros p _. exists no_frame. split; reflexivity.
Defined.

(** C4, as the script has it.  For a family of fetch results of which at
    least one is non-empty and carries a [date] column, the loops visit the
    calls indicator-outer, country-inner and keep the non-empty frames in
    that order; [build] returns a table with as many rows as the non-empty
    results hold together; its rows are those of the kept frames with the
    year coerced (what does not read as a number becomes the null year);
    and its years ascend, the null years coming last.  The order among
    rows of equal year is whatever [argsort] returns. *)
Theorem build_sorted_by_year `{Pandas} (F : string -> string -> DataFrame)
    indicators countries :
  (exists p, p ∈ calls indicators countries /\
             empty (F p.2 p.1.2) = false /\ "date" ∈ columns (F p.2 p.1.2)) ->
  download_all (fun c k => OK (F c k)) indicators countries
    = OK (survivors F (calls indicators countries)) /\
  exists data,
    build (fun c k => OK (F c k)) indicators countries = OK data /\
    length (rows data)
      = sum_list (length ∘ rows <$>
                  filter (fun df => empty df = false)
                         ((fun p => F p.2 p.1.2) <$> calls indicators countries)) /\
    rows data ≡ₚ coerce_date <$> (survivors F (calls indicators countries) ≫= rows) /\
    exists (years : list Q) (n : nat),
      year <$> rows data = (Some <$> years) ++ replicate n None /\
      Sorted Qle years.
Proof.
  intros (p & Hp & Hne & Hdate).
  assert (Hans : answers (fun c k => OK (F c k)) F (calls indicators countries))
    by (by apply Forall_forall).
  split; [by apply download_all_family|].
  set (dfs := survivors F (calls indicators countries)).
  assert (Hin : assign "indicator_label" (JStr p.1.1) (F p.2 p.1.2) ∈ dfs)
    by (apply elem_of_survivors; eauto).
  assert (Hcol : "date" ∈ ⋃ (columns <$> dfs)).
  { apply elem_of_union_list. eexists. split.
    - apply list_elem_of_fmap. eexists. split; [reflexivity | exact Hin].
    - simpl. by apply elem_of_union_r. }
  exists (sorted_table dfs). split_and!.
  - apply build_family_OK; [done | | done]. fold dfs.
    intros Hnil. rewrite Hnil in Hin. by apply elem_of_nil in Hin.
  - rewrite sorted_table_perm, length_fmap. apply survivors_length.
  - apply sorted_table_perm.
  - apply sorted_table_years.
Qed.

Lemma build_sorted_by_year_witness :
  let F := returned (fetch_worldbank_data sample_get) in
  let ps := calls INDICATORS [COUNTRY_GH; COUNTRY_US] in
  @download_all (fun c k => OK (F c k)) INDICATORS [COUNTRY_GH; COUNTRY_US]
    = OK (survivors F ps) /\
  exists data,
    @build pandas_stable (fun c k => OK (F c k)) INDICATORS [COUNTRY_GH; COUNTRY_US]
      = OK data /\
    length (rows data)
      = sum_list (length ∘ rows <$>
                  filter (fun df => empty df = false) ((fun p => F p.2 p.1.2) <$> ps)) /\
    rows data ≡ₚ @coerce_date pandas_stable <$> (survivors F ps ≫= rows) /\
    exists (years : list Q) (n : nat),
      year <$> rows data = (Some <$> years) ++ replicate n None /\
      Sorted Qle years.
Proof.
  apply (@build_sorted_by_year pandas_stable).
  exists ("Child Anemia (% of children under 5)", "SH.ANM.CHLD.ZS", "GHA").
  split_and!.
  - apply elem_of_calls. split; [apply list_elem_of_here|apply list_elem_of_here].
  - vm_compute. reflexivity.
  - refine (bool_decide_unpack _ _). vm_compute. exact I.
Defined.

(** C4 as stated fails twice.  The family in which every result is empty
    gets no table, [build] raises; and with a sort that meets the contract
    of [argsort] but returns equal keys in reverse, two records of the same
    year leave [build] in the order opposite to the one they were
    concatenated in. *)
Lemma build_neither_total_nor_stable :
  @build pandas_stable (fun _ _ => OK no_frame) INDICATORS [COUNTRY_GH; COUNTRY_US]
    = Raise (ValueError "No objects to concatenate") /\
  let F := returned (fetch_worldbank_data
             (fun url =>
                Replied 200 (Some (JArr [JObj []; JArr [observation "1990" (JNum 5)]])))) in
  let specs := [("GDP per Capita (USD)", "NY.GDP.PCAP.CD")] in
  exists gh us data,
    @coerce_date pandas_reversing
      <$> (survivors F (calls specs [COUNTRY_GH; COUNTRY_US]) ≫= rows) = [gh; us] /\
    cell gh "country" = JStr "GHA" /\ cell us "country" = JStr "USA" /\
    year gh = year us /\
    @build pandas_reversing (fun c k => OK (F c k)) specs [COUNTRY_GH; COUNTRY_US]
      = OK data /\
    rows data = [us; gh].
Proof.
  split; [vm_compute; reflexivity|].
  intros F specs. do 3 eexists. split_and!; vm_compute; reflexivity.
Qed.

(** C10.  In the table [build] returns, a row whose year is null stands
    after every row whose year is a number. *)
Theorem null_years_last `{Pandas} fetch indicators countries data
    (i j : nat) (ri rj : gmap string json) :
  build fetch indicators countries = OK data ->
  rows data !! i = Some ri -> rows data !! j = Some rj ->
  year ri = None -> is_Some (year rj) ->
  j < i.
Proof.
  intros Hbuild Hi Hj Hnull [q Hq].
  apply build_OK in Hbuild as (_ & _ & _ & ->).
  destruct (sorted_table_years (survivors (returned fetch) (calls indicators countries)))
    as (years & n & Hyears & _).
  assert (Hyi : (year <$> rows (sorted_table (survivors (returned fetch)
                   (calls indicators countries)))) !! i = Some None)
    by (by rewrite list_lookup_fmap, Hi; simpl; rewrite Hnull).
  assert (Hyj : (year <$> rows (sorted_table (survivors (returned fetch)
                   (calls indicators countries)))) !! j = Some (Some q))
    by (by rewrite list_lookup_fmap, Hj; simpl; rewrite Hq).
  rewrite Hyears in Hyi, Hyj.
  apply lookup_app_Some in Hyi as [Hyi | [Hlen _]].
  { apply list_lookup_fmap_Some in Hyi as (? & ? & ?). done. }
  apply lookup_app_Some in Hyj as [Hyj | [_ Hyj]].
  - apply lookup_lt_Some in Hyj. lia.
  - apply lookup_replicate in Hyj as [? _]. done.
Qed.

Lemma null_years_last_witness :
  let d := returned_value no_frame (@data pandas_stable sample_get) in
  @data pandas_stable sample_get = OK d /\
  year <$> rows d !! 4%nat = Some None /\
  year <$> rows d !! 1%nat = Some (Some (inject_Z 1990)) /\
  (1 < 4)%nat.
Proof.
  intros d. split_and!; [vm_compute; reflexivity.. |].
  apply (@null_years_last pandas_stable (fetch_worldbank_data sample_get)
           INDICATORS [COUNTRY_GH; COUNTRY_US] d 4 1
           (default ∅ (rows d !! 4%nat)) (default ∅ (rows d !! 1%nat))).
  - vm_compute. reflexivity.
  - vm_compute. reflexivity.
  - vm_compute. reflexivity.
  - vm_compute. reflexivity.
  - vm_compute. eexists. reflexivity.
Defined.

(** ** The configuration *)

Lemma INDICATORS_labels_NoDup : NoDup INDICATORS.*1.
Proof. refine (bool_decide_unpack _ _). vm_compute. exact I. Qed.

Lemma INDICATORS_codes_NoDup : NoDup INDICATORS.*2.
Proof. refine (bool_decide_unpack _ _). vm_compute. exact I. Qed.

Lemma NoDup_snd_inj {A B : Type} (l : list (A * B)) a1 a2 b :
  NoDup l.*2 -> (a1, b) ∈ l -> (a2, b) ∈ l -> a1 = a2.
Proof.
  intros Hnd H1 H2.
  apply list_elem_of_lookup in H1 as [i Hi], H2 as [j Hj].
  assert (i = j) as ->.
  { apply (NoDup_lookup _ _ _ b Hnd); by rewrite list_lookup_fmap, ?Hi, ?Hj. }
  congruence.
Qed.

Lemma NoDup_fst_inj {A B : Type} (l : list (A * B)) a b1 b2 :
  NoDup l.*1 -> (a, b1) ∈ l -> (a, b2) ∈ l -> b1 = b2.
Proof.
  intros Hnd H1 H2.
  apply list_elem_of_lookup in H1 as [i Hi], H2 as [j Hj].
  assert (i = j) as ->.
  { apply (NoDup_lookup _ _ _ a Hnd); by rewrite list_lookup_fmap, ?Hi, ?Hj. }
  congruence.
Qed.

Lemma getitem_OK {V : Type} (d : list (string * V)) k v :
  getitem d k = OK v -> (k, v) ∈ d.
Proof.
  induction d as [|[k' v'] d IH]; [done|]. simpl. case_bool_decide as Hk.
  - intros [= ->]. subst. apply list_elem_of_here.
  - intros Hv. apply list_elem_of_further. by apply IH.
Qed.

Lemma getitem_elem {V : Type} (d : list (string * V)) k v :
  NoDup d.*1 -> (k, v) ∈ d -> getitem d k = OK v.
Proof.
  induction d as [|[k' v'] d IH]; [by intros _ ?%elem_of_nil|].
  csimpl. intros [Hk' Hnd]%NoDup_cons [[= -> ->] | Hin]%elem_of_cons.
  - by rewrite bool_decide_eq_true_2.
  - rewrite bool_decide_eq_false_2; [by apply IH|].
    intros ->. apply Hk'. apply list_elem_of_fmap. by exists (k, v).
Qed.

Lemma getitem_label (label : string) :
  label ∈ INDICATORS.*1 -> exists code, getitem INDICATORS label = OK code.
Proof.
  intros ([l code] & -> & Hin)%list_elem_of_fmap. exists code.
  apply getitem_elem; [apply INDICATORS_labels_NoDup | done].
Qed.

Lemma getitem_description (label : string) :
  label ∈ INDICATORS.*1 -> exists about, getitem indicator_description label = OK about.
Proof.
  replace INDICATORS.*1 with indicator_description.*1 by (vm_compute; reflexivity).
  intros ([l about] & -> & Hin)%list_elem_of_fmap. exists about.
  apply getitem_elem; [|done].
  refine (bool_decide_unpack _ _). vm_compute. exact I.
Qed.

(** ** The rows and columns of [data] *)

Lemma fetch_columns get country code df :
  fetch_worldbank_data get country code = OK df -> empty df = false ->
  "country" ∈ columns df /\ "indicator_code" ∈ columns df.
Proof.
  unfold fetch_worldbank_data. destruct (get_json _ _) as [response|]; [|done].
  rewrite bind_OK. destruct (_ || _).
  { by intros [= <-]. }
  destruct (item response 1) as [payload|]; [|done]. rewrite bind_OK.
  destruct (pd_DataFrame payload) as [df0|]; [|done]. rewrite bind_OK.
  intros [= <-] _. simpl. split; set_solver.
Qed.

Section DataFacts.
Context `{Pandas}.
Variable get : string -> http_outcome.
Variable d : DataFrame.
Hypothesis Hdata : data get = OK d.

(** Every row of [data] carries the label and code of one configured
    indicator and the country of the call that fetched it, and that call
    returned a frame that was not empty. *)
Lemma data_row (r : gmap string json) :
  r ∈ rows d ->
  exists label code country df,
    (label, code) ∈ INDICATORS /\
    (country = COUNTRY_GH \/ country = COUNTRY_US) /\
    fetch_worldbank_data get country code = OK df /\ empty df = false /\
    cell r "indicator_label" = JStr label /\
    cell r "indicator_code" = JStr code /\
    cell r "country" = JStr country.
Proof.
  intros Hr.
  destruct (build_row_origin _ _ _ _ _ Hdata Hr)
    as (label & code & country & df & r0 & Hspec & Hc & Hfetch & Hne & Hr0 & ->).
  exists label, code, country, df. split_and!; try done.
  - apply elem_of_cons in Hc as [-> | Hc]; [by left|].
    apply list_elem_of_singleton in Hc as ->. by right.
  - unfold cell, coerce_date. by simplify_map_eq.
  - pose proof (proj1 (Forall_forall _ _) (fetch_stamps _ _ _ _ Hfetch) _ Hr0)
      as [_ Hcode].
    unfold cell, coerce_date. rewrite !lookup_insert_ne by done. by rewrite Hcode.
  - pose proof (proj1 (Forall_forall _ _) (fetch_stamps _ _ _ _ Hfetch) _ Hr0)
      as [Hcountry _].
    unfold cell, coerce_date. rewrite !lookup_insert_ne by done. by rewrite Hcountry.
Qed.

Lemma data_columns :
  "country" ∈ columns d /\ "indicator_code" ∈ columns d /\
  "indicator_label" ∈ columns d /\ "date" ∈ columns d.
Proof.
  pose proof Hdata as Hbuild. apply build_OK in Hbuild as (Hans & Hne & _ & ->).
  destruct (survivors _ _) as [|df dfs] eqn:Hdfs; [done|].
  assert (Hdf : df ∈ survivors (returned (fetch_worldbank_data get))
                     (calls INDICATORS [COUNTRY_GH; COUNTRY_US]))
    by (rewrite Hdfs; apply list_elem_of_here).
  apply elem_of_survivors in Hdf as (p & Hp & Hnonempty & Hdf).
  pose proof (proj1 (Forall_forall _ _) Hans _ Hp) as Hfetch. simpl in Hfetch.
  destruct (fetch_columns _ _ _ _ Hfetch Hnonempty) as [Hc1 Hc2].
  assert (Hsub : forall c, c ∈ columns df -> c ∈ columns (sorted_table (df :: dfs))).
  { intros c Hc. unfold sorted_table. cbn [columns]. csimpl.
    by apply elem_of_union_r, elem_of_union_l. }
  subst df. cbn [columns assign] in Hsub.
  split_and!.
  - by apply Hsub, elem_of_union_r.
  - by apply Hsub, elem_of_union_r.
  - by apply Hsub, elem_of_union_l, elem_of_singleton.
  - unfold sorted_table. cbn [columns]. by apply elem_of_union_l, elem_of_singleton.
Qed.
End DataFacts.

(** C9.  Every row of [data] has for [indicator_code] the code of exactly
    one configured indicator and for [country] one of the two country
    codes, and the call for that country and that code returned a frame
    that was not empty: no row stands for a pair whose call returned
    nothing.  (A call that raises leaves no [data] at all.) *)
Theorem dataset_invariant `{Pandas} get d (r : gmap string json) :
  data get = OK d -> r ∈ rows d ->
  exists label code country,
    cell r "indicator_code" = JStr code /\
    (label, code) ∈ INDICATORS /\
    (forall spec, spec ∈ INDICATORS -> spec.2 = code -> spec = (label, code)) /\
    cell r "country" = JStr country /\
    (country = COUNTRY_GH \/ country = COUNTRY_US) /\
    exists df, fetch_worldbank_data get country code = OK df /\ empty df = false.
Proof.
  intros Hdata Hr.
  destruct (data_row get d Hdata r Hr)
    as (label & code & country & df & Hspec & Hc & Hfetch & Hne & _ & Hcode & Hcountry).
  exists label, code, country. split_and!; try done; [|by exists df].
  intros [label' code'] Hspec' Hcode'. simpl in Hcode'. subst code'.
  f_equal. by eapply NoDup_snd_inj; [apply INDICATORS_codes_NoDup|..].
Qed.

Lemma dataset_invariant_witness :
  let d := returned_value no_frame (@data pandas_stable sample_get) in
  let r := default ∅ (rows d !! 0%nat) in
  exists label code country,
    cell r "indicator_code" = JStr code /\
    (label, code) ∈ INDICATORS /\
    (forall spec, spec ∈ INDICATORS -> spec.2 = code -> spec = (label, code)) /\
    cell r "country" = JStr country /\
    (country = COUNTRY_GH \/ country = COUNTRY_US) /\
    exists df, fetch_worldbank_data sample_get country code = OK df /\ empty df = false.
Proof.
  intros d r. apply (@dataset_invariant pandas_stable sample_get d r).
  - vm_compute. reflexivity.
  - apply (list_elem_of_lookup_2 _ 0%nat). vm_compute. reflexivity.
Defined.

(** ** The selection *)

Lemma filter_ext_Forall {A : Type} (P1 P2 : A -> Prop)
    `{!forall x, Decision (P1 x), !forall x, Decision (P2 x)} (l : list A) :
  Forall (fun x => P1 x <-> P2 x) l -> filter P1 l = filter P2 l.
Proof.
  induction 1 as [|x l Hx _ IH]; [done|].
  destruct (decide (P1 x)).
  - rewrite !filter_cons_True by tauto. by rewrite IH.
  - rewrite !filter_cons_False by tauto. by rewrite IH.
Qed.

Lemma where_eq_OK (c v : string) (df : DataFrame) :
  c ∈ columns df ->
  where_eq c v df
  = OK (mkFrame (columns df) (filter (fun r => eq_str v (cell r c)) (rows df))).
Proof.
  intros Hc. unfold where_eq, column. by rewrite bool_decide_eq_true_2.
Qed.

(** On a paired row, the test on the code of the selected label and the
    test on the label itself agree. *)
Lemma paired_code_label (r : gmap string json) (selected_label code : string) :
  paired r -> (selected_label, code) ∈ INDICATORS ->
  eq_str code (cell r "indicator_code") <-> labelled selected_label r.
Proof.
  intros (l & k & Hspec & Hl & Hk) Hsel. unfold labelled. rewrite Hl, Hk. simpl.
  rewrite !bool_decide_spec. split; intros ->.
  - by eapply NoDup_snd_inj; [apply INDICATORS_codes_NoDup|..].
  - by eapply NoDup_fst_inj; [apply INDICATORS_labels_NoDup|..].
Qed.

Lemma selection_OK (d : DataFrame) (selected_label code : string) :
  "country" ∈ columns d -> "indicator_code" ∈ columns d ->
  (selected_label, code) ∈ INDICATORS ->
  Forall paired (rows d) ->
  selection d selected_label
  = OK (mkFrame (columns d)
          (filter (fun r => labelled selected_label r /\ of_country COUNTRY_GH r) (rows d)),
        mkFrame (columns d)
          (filter (fun r => labelled selected_label r /\ of_country COUNTRY_US r) (rows d))).
Proof.
  intros Hc Hk Hsel Hpaired. unfold selection.
  rewrite !(where_eq_OK "country") by done. rewrite !bind_OK.
  rewrite (getitem_elem _ _ _ INDICATORS_labels_NoDup Hsel), bind_OK.
  rewrite !(where_eq_OK "indicator_code") by done. rewrite !bind_OK.
  cbn [columns rows]. rewrite !list_filter_filter.
  do 3 f_equal; apply filter_ext_Forall; (eapply Forall_impl; [exact Hpaired|]);
    intros r Hr; simpl; rewrite (paired_code_label r _ _ Hr Hsel); done.
Qed.

Lemma countries_differ (r : gmap string json) :
  of_country COUNTRY_GH r -> of_country COUNTRY_US r -> False.
Proof.
  unfold of_country. destruct (cell r "country"); simpl; try done.
  rewrite !bool_decide_spec. by intros -> [=].
Qed.

(** The two views together are the matching rows, Ghana's first. *)
Lemma views_perm (selected_label : string) (l : list (gmap string json)) :
  filter (fun r => labelled selected_label r /\ of_country COUNTRY_GH r) l
  ++ filter (fun r => labelled selected_label r /\ of_country COUNTRY_US r) l
  ≡ₚ filter (fun r => Is_true (matching selected_label r)) l.
Proof.
  induction l as [|r l IH]; [done|]. unfold matching in *.
  rewrite !(filter_cons _ r).
  destruct (labelled selected_label r) eqn:Hl; simpl;
    destruct (of_country COUNTRY_GH r) eqn:Hgh; simpl;
    destruct (of_country COUNTRY_US r) eqn:Hus; simpl;
    repeat case_decide; try tauto; try (by rewrite IH).
  - exfalso. apply (countries_differ r); by rewrite ?Hgh, ?Hus.
  - rewrite <- Permutation_middle. by rewrite IH.
Qed.

(** The frame behind a chart is the two views, one after the other. *)
Lemma render_Chart_frame (d gh us : DataFrame) (selected_label : string) fig about :
  selection d selected_label = OK (gh, us) ->
  render d selected_label = OK (Chart fig about) ->
  rows (data_frame fig) = rows gh ++ rows us.
Proof.
  intros Hsel. unfold render. rewrite Hsel, bind_OK. cbn [concat fst snd].
  rewrite bind_OK. destruct (column "value" _) as [values|]; [|done].
  rewrite bind_OK. destruct (series_max _) as [max_y|]; [|done].
  rewrite bind_OK. destruct (empty _); [done|].
  destruct (getitem indicator_description _) as [text|]; [|done].
  rewrite bind_OK. intros [= <- _]. cbn [data_frame rows]. csimpl.
  by rewrite app_nil_r.
Qed.

(** C6.  On the table built by the download stage and for a configured
    label, the two views the chart is made of are the rows of that label
    for Ghana and the rows of that label for the USA; no row is in both;
    together they are the rows of the table that carry the label and one
    of the two country codes, which are all the rows carrying the label;
    filtering on the code the label maps to selects the same rows as
    filtering on the label; and a chart, when one is drawn, is drawn from
    the two views put together. *)
Theorem chart_rows_by_label `{Pandas} get d (selected_label : string) :
  data get = OK d -> selected_label ∈ INDICATORS.*1 ->
  exists gh us code,
    getitem INDICATORS selected_label = OK code /\
    selection d selected_label = OK (gh, us) /\
    rows gh = filter (fun r => labelled selected_label r /\ of_country COUNTRY_GH r)
                     (rows d) /\
    rows us = filter (fun r => labelled selected_label r /\ of_country COUNTRY_US r)
                     (rows d) /\
    (forall r, r ∈ rows gh -> r ∉ rows us) /\
    rows gh ++ rows us ≡ₚ filter (fun r => Is_true (matching selected_label r)) (rows d) /\
    filter (fun r => Is_true (matching selected_label r)) (rows d)
      = filter (fun r => Is_true (labelled selected_label r)) (rows d) /\
    filter (fun r => Is_true (eq_str code (cell r "indicator_code"))) (rows d)
      = filter (fun r => Is_true (labelled selected_label r)) (rows d) /\
    (forall fig about,
        render d selected_label = OK (Chart fig about) ->
        rows (data_frame fig) = rows gh ++ rows us).
Proof.
  intros Hdata ([l code] & -> & Hsel)%list_elem_of_fmap. cbn [fst].
  destruct (data_columns get d Hdata) as (Hc & Hk & _ & _).
  assert (Hrows : Forall (fun r => paired r /\
            (of_country COUNTRY_GH r \/ of_country COUNTRY_US r)) (rows d)).
  { apply Forall_forall. intros r Hr.
    destruct (data_row get d Hdata r Hr)
      as (label & k & country & _ & Hspec & Hcountry & _ & _ & Hl & Hcode & Hcc).
    split; [by exists label, k|]. unfold of_country. rewrite Hcc. simpl.
    rewrite !bool_decide_spec. destruct Hcountry; auto. }
  assert (Hpaired : Forall paired (rows d))
    by (eapply Forall_impl; [exact Hrows|]; by intros r [? _]).
  eexists _, _, code. split_and!.
  - by apply getitem_elem; [apply INDICATORS_labels_NoDup|].
  - by apply (selection_OK d l code).
  - done.
  - done.
  - cbn [rows]. intros r [[_ Hgh] _]%list_elem_of_filter [[_ Hus] _]%list_elem_of_filter.
    by apply (countries_differ r).
  - cbn [rows]. apply views_perm.
  - apply filter_ext_Forall. eapply Forall_impl; [exact Hrows|].
    intros r [_ Hcountry]. unfold matching.
    rewrite andb_True, orb_True. tauto.
  - apply filter_ext_Forall. eapply Forall_impl; [exact Hpaired|].
    intros r Hr. by apply paired_code_label.
  - intros fig about. apply render_Chart_frame. by apply (selection_OK d l code).
Qed.

Lemma chart_rows_by_label_witness :
  let d := returned_value no_frame (@data pandas_stable sample_get) in
  let selected_label := "Child Anemia (% of children under 5)" in
  exists gh us code,
    getitem INDICATORS selected_label = OK code /\
    selection d selected_label = OK (gh, us) /\
    rows gh = filter (fun r => labelled selected_label r /\ of_country COUNTRY_GH r)
                     (rows d) /\
    rows us = filter (fun r => labelled selected_label r /\ of_country COUNTRY_US r)
                     (rows d) /\
    (forall r, r ∈ rows gh -> r ∉ rows us) /\
    rows gh ++ rows us ≡ₚ filter (fun r => Is_true (matching selected_label r)) (rows d) /\
    filter (fun r => Is_true (matching selected_label r)) (rows d)
      = filter (fun r => Is_true (labelled selected_label r)) (rows d) /\
    filter (fun r => Is_true (eq_str code (cell r "indicator_code"))) (rows d)
      = filter (fun r => Is_true (labelled selected_label r)) (rows d) /\
    (forall fig about,
        render d selected_label = OK (Chart fig about) ->
        rows (data_frame fig) = rows gh ++ rows us).
Proof.
  intros d selected_label.
  apply (@chart_rows_by_label pandas_stable sample_get d selected_label).
  - vm_compute. reflexivity.
  - apply list_elem_of_here.
Defined.

(** ** The chart *)

Lemma paired_b_paired (r : gmap string json) : paired_b r -> paired r.
Proof.
  unfold paired_b. intros Hb. apply Is_true_true, existsb_exists in Hb
    as ([label code] & Hin & Hb). apply andb_true_iff in Hb as [Hl Hk]. simpl in *.
  exists label, code. split; [by apply list_elem_of_In|].
  destruct (cell r "indicator_label"); try done.
  destruct (cell r "indicator_code"); try done. simpl in *.
  apply bool_decide_eq_true_1 in Hl, Hk. by subst.
Qed.

Lemma is_dataset_columns (d : DataFrame) :
  is_dataset d ->
  "country" ∈ columns d /\ "indicator_code" ∈ columns d /\ "value" ∈ columns d.
Proof.
  unfold is_dataset. rewrite !andb_True, !bool_decide_spec. tauto.
Qed.

Lemma is_dataset_rows (d : DataFrame) :
  is_dataset d ->
  Forall (fun r => paired r /\ numeric_or_null (cell r "value")) (rows d).
Proof.
  unfold is_dataset. rewrite !andb_True. intros (_ & Hrows).
  apply Is_true_true in Hrows. rewrite forallb_forall in Hrows.
  apply Forall_forall. intros r Hr%list_elem_of_In. specialize (Hrows r Hr).
  apply andb_true_iff in Hrows as [Hp Hv]. split; [|by apply Is_true_true].
  by apply paired_b_paired, Is_true_true.
Qed.

Lemma paired_paired_b (r : gmap string json) : paired r -> paired_b r.
Proof.
  intros (label & code & Hin & Hl & Hk). unfold paired_b.
  apply Is_true_true, existsb_exists. exists (label, code).
  split; [by apply list_elem_of_In|]. rewrite Hl, Hk. simpl.
  by rewrite !bool_decide_eq_true_2.
Qed.

(** The table the download stage builds is a table of observation records
    as soon as the payloads brought a [value] that is a number or null. *)
Lemma data_is_dataset `{Pandas} get (d : DataFrame) :
  data get = OK d -> "value" ∈ columns d ->
  Forall (fun r => Is_true (numeric_or_null (cell r "value"))) (rows d) ->
  is_dataset d.
Proof.
  intros Hdata Hvalue Hvalues.
  destruct (data_columns get d Hdata) as (Hc & Hk & _ & _).
  unfold is_dataset. rewrite !andb_True, !bool_decide_spec. split_and!; try done.
  apply Is_true_true, forallb_forall. intros r Hr%list_elem_of_In.
  apply andb_true_iff. split; apply Is_true_true.
  - apply paired_paired_b.
    destruct (data_row get d Hdata r Hr)
      as (label & code & _ & _ & Hspec & _ & _ & _ & Hl & Hcode & _).
    by exists label, code.
  - by apply (proj1 (Forall_forall _ _) Hvalues).
Qed.

Lemma max_list_cons (q : Q) (qs : list Q) :
  max_list (q :: qs) = Some (from_option (Qmax q) q (max_list qs)).
Proof. reflexivity. Qed.

Lemma max_list_None (qs : list Q) : max_list qs = None <-> qs = [].
Proof. by destruct qs. Qed.

Lemma max_list_ge (qs : list Q) (m : Q) :
  max_list qs = Some m -> Forall (fun q => (q <= m)%Q) qs.
Proof.
  revert m. induction qs as [|q qs IH]; intros m; [constructor|].
  rewrite max_list_cons. intros [= <-]. destruct (max_list qs) as [m'|] eqn:Hm'; simpl.
  - constructor; [apply Q.le_max_l|].
    eapply Forall_impl; [by apply IH|]. intros x Hx. simpl in Hx.
    eapply Qle_trans; [exact Hx | apply Q.le_max_r].
  - apply max_list_None in Hm' as ->. constructor; [apply Qle_refl | constructor].
Qed.

Lemma max_list_elem (qs : list Q) (m : Q) : max_list qs = Some m -> m ∈ qs.
Proof.
  revert m. induction qs as [|q qs IH]; intros m; [done|].
  rewrite max_list_cons. intros [= <-]. destruct (max_list qs) as [m'|] eqn:Hm'; simpl.
  - unfold Qmax, GenericMinMax.gmax. destruct (q ?= m')%Q.
    + apply list_elem_of_here.
    + apply list_elem_of_further. by apply IH.
    + apply list_elem_of_here.
  - apply list_elem_of_here.
Qed.

(** Line 116: on values that are numbers or null, [dropna().max()] is the
    largest of the numbers. *)
Lemma series_max_dropna (rs : list (gmap string json)) :
  Forall (fun r => Is_true (numeric_or_null (cell r "value"))) rs ->
  series_max (dropna ((fun r => cell r "value") <$> rs)) = OK (max_list (observed rs)).
Proof.
  intros Hrs. unfold series_max.
  replace (mapM number (dropna ((fun r => cell r "value") <$> rs)))
    with (Some (observed rs)); [done|].
  symmetry. apply mapM_Some. unfold dropna, observed.
  induction Hrs as [|r rs Hr _ IH]; [constructor|].
  csimpl. destruct (cell r "value") eqn:Hv; try done.
  rewrite filter_cons_True by done. simpl. by constructor.
Qed.

Lemma observed_elem (rs : list (gmap string json)) (v : Q) :
  v ∈ observed rs <-> exists r, r ∈ rs /\ cell r "value" = JNum v.
Proof.
  unfold observed. rewrite list_elem_of_omap. split.
  - intros (r & Hr & Hv). exists r. split; [done|].
    destruct (cell r "value"); simplify_eq/=. done.
  - intros (r & Hr & Hv). exists r. split; [done|]. by rewrite Hv.
Qed.

(** [render] on a table of observation records, in terms of the rows the
    two views pick. *)
Lemma render_dataset (d : DataFrame) (selected_label : string) :
  is_dataset d -> selected_label ∈ INDICATORS.*1 ->
  let picked :=
    filter (fun r => labelled selected_label r /\ of_country COUNTRY_GH r) (rows d)
    ++ filter (fun r => labelled selected_label r /\ of_country COUNTRY_US r) (rows d) in
  (picked = [] -> render d selected_label = OK NoData) /\
  (picked <> [] ->
   exists fig about,
     render d selected_label = OK (Chart fig about) /\
     rows (data_frame fig) = picked /\
     yaxis_range fig = (0%Q, max_list (observed picked))).
Proof.
  intros Hd Hlabel picked.
  destruct (is_dataset_columns d Hd) as (Hc & Hk & Hv).
  pose proof (is_dataset_rows d Hd) as Hrows.
  destruct (getitem_description _ Hlabel) as [about Habout].
  apply list_elem_of_fmap in Hlabel as ([l code] & -> & Hsel). cbn [fst] in *.
  assert (Hrender : render d l =
    if bool_decide (picked = []) then OK NoData
    else OK (Chart {| data_frame := mkFrame (⋃ [columns d; columns d]) picked;
                      x := "date"; y := "value"; color := "country";
                      title := l +:+ ": Ghana vs USA";
                      labels := [("date", "Year"); ("value", l); ("country", "Country")];
                      yaxis_range := (0%Q, max_list (observed picked)) |} about)).
  { unfold render. rewrite (selection_OK d l code); [|done..|].
    2:{ eapply Forall_impl; [exact Hrows|]. by intros r [? _]. }
    rewrite bind_OK. cbn [concat fst snd]. rewrite bind_OK.
    assert (Hpicked : [mkFrame (columns d)
                (filter (fun r => labelled l r /\ of_country COUNTRY_GH r) (rows d));
              mkFrame (columns d)
                (filter (fun r => labelled l r /\ of_country COUNTRY_US r) (rows d))]
             ≫= rows = picked) by (csimpl; by rewrite app_nil_r).
    rewrite Hpicked. cbn [fmap list_fmap columns].
    unfold column. cbn [columns rows].
    rewrite bool_decide_eq_true_2 by (csimpl; by apply elem_of_union_l).
    rewrite bind_OK, series_max_dropna, bind_OK.
    2:{ apply Forall_forall. intros r Hr.
        assert (Hrd : r ∈ rows d).
        { apply elem_of_app in Hr as [Hr | Hr];
            by apply list_elem_of_filter in Hr as [_ Hr]. }
        by destruct (proj1 (Forall_forall _ _) Hrows r Hrd). }
    unfold empty. cbn [columns rows].
    rewrite (bool_decide_eq_false_2 (_ = ∅)).
    2:{ intros Hempty. assert (Hin : "value" ∈ ⋃ [columns d; columns d])
          by (csimpl; by apply elem_of_union_l).
        rewrite Hempty in Hin. by apply not_elem_of_empty in Hin. }
    cbn [orb]. case_bool_decide; [done|]. by rewrite Habout. }
  rewrite Hrender. split.
  - intros Hnone. by rewrite bool_decide_eq_true_2.
  - intros Hsome. rewrite bool_decide_eq_false_2 by done. by eexists _, _.
Qed.

Lemma picked_found (selected_label : string) (l : list (gmap string json))
    (r : gmap string json) :
  r ∈ filter (fun r => labelled selected_label r /\ of_country COUNTRY_GH r) l
      ++ filter (fun r => labelled selected_label r /\ of_country COUNTRY_US r) l
  <-> r ∈ l /\ matching selected_label r.
Proof.
  rewrite views_perm, list_elem_of_filter. tauto.
Qed.

(** C1, as the script has it.  On a table of observation records and for a
    configured label, [render] gives [NoData] exactly when no record
    matches the label for either country.  When records match, a chart is
    drawn even if all their values are null; the upper end of its y-axis
    is then undefined (NaN). *)
Theorem render_NoData_iff_no_match (d : DataFrame) (selected_label : string) :
  is_dataset d -> selected_label ∈ INDICATORS.*1 ->
  let found := filter (fun r => Is_true (matching selected_label r)) (rows d) in
  (render d selected_label = OK NoData <-> found = []) /\
  (found <> [] ->
   exists fig about,
     render d selected_label = OK (Chart fig about) /\
     (Forall (fun r => cell r "value" = JNull) found ->
      yaxis_range fig = (0%Q, None))).
Proof.
  intros Hd Hlabel found.
  destruct (render_dataset d selected_label Hd Hlabel) as [Hnone Hsome].
  set (picked := _ ++ _) in Hnone, Hsome.
  assert (Hperm : picked ≡ₚ found) by apply views_perm.
  assert (Hchart : found <> [] ->
    exists fig about,
      render d selected_label = OK (Chart fig about) /\
      (Forall (fun r => cell r "value" = JNull) found ->
       yaxis_range fig = (0%Q, None))).
  { intros Hfound. destruct Hsome as (fig & about & Hrender & _ & Hrange).
    { intros Hp. rewrite Hp in Hperm. by apply Permutation_nil_l in Hperm. }
    exists fig, about. split; [done|]. intros Hnull. rewrite Hrange. f_equal.
    apply max_list_None. destruct (observed picked) as [|v vs] eqn:Hobs; [done|].
    assert (Hv : v ∈ observed picked) by (rewrite Hobs; apply list_elem_of_here).
    apply observed_elem in Hv as (r & Hr & Hv). rewrite Hperm in Hr.
    pose proof (proj1 (Forall_forall _ _) Hnull r Hr) as Hr'. congruence. }
  split; [|done]. split.
  - intros Hrender. destruct found as [|r rs] eqn:Hfound; [done|].
    destruct Hchart as (fig & about & Hrender' & _); [done|]. congruence.
  - intros Hfound. apply Hnone. rewrite Hfound in Hperm.
    by apply Permutation_nil_r in Hperm.
Qed.

Lemma render_NoData_iff_no_match_witness :
  let d := returned_value no_frame (@data pandas_stable null_get) in
  let selected_label := "GDP per Capita (USD)" in
  let found := filter (fun r => Is_true (matching selected_label r)) (rows d) in
  (render d selected_label = OK NoData <-> found = []) /\
  (found <> [] ->
   exists fig about,
     render d selected_label = OK (Chart fig about) /\
     (Forall (fun r => cell r "value" = JNull) found ->
      yaxis_range fig = (0%Q, None))).
Proof.
  intros d selected_label.
  apply (render_NoData_iff_no_match d selected_label).
  - vm_compute. exact I.
  - do 4 apply list_elem_of_further. apply list_elem_of_here.
Defined.

(** C1 as stated fails in its second half: the only record matching the
    label has a null value, and [render] draws a chart, with an undefined
    upper end of the y-axis, instead of giving [NoData]. *)
Lemma render_draws_chart_of_null_values :
  let selected_label := "GDP per Capita (USD)" in
  exists d r fig about,
    @data pandas_stable null_get = OK d /\
    filter (fun r => Is_true (matching selected_label r)) (rows d) = [r] /\
    cell r "value" = JNull /\
    render d selected_label = OK (Chart fig about) /\
    yaxis_range fig = (0%Q, None) /\
    render d selected_label <> OK NoData.
Proof.
  intros selected_label. do 4 eexists.
  split_and!; [vm_compute; reflexivity.. | vm_compute; discriminate].
Qed.

(** C5.  On a table of observation records, when a record matching the
    selected label has a non-null value, [render] draws a chart whose
    y-axis runs from 0 to a bound that no value of a matching record
    exceeds; the bound is itself the value of a matching record. *)
Theorem chart_y_range (d : DataFrame) (selected_label : string)
    (r0 : gmap string json) (v0 : Q) :
  is_dataset d -> selected_label ∈ INDICATORS.*1 ->
  r0 ∈ rows d -> matching selected_label r0 -> cell r0 "value" = JNum v0 ->
  exists fig about m,
    render d selected_label = OK (Chart fig about) /\
    yaxis_range fig = (0%Q, Some m) /\
    (forall r v, r ∈ rows d -> matching selected_label r ->
                 cell r "value" = JNum v -> (v <= m)%Q) /\
    (exists r, r ∈ rows d /\ matching selected_label r /\ cell r "value" = JNum m).
Proof.
  intros Hd Hlabel Hr0 Hm0 Hv0.
  destruct (render_dataset d selected_label Hd Hlabel) as [_ Hsome].
  set (picked := _ ++ _) in Hsome.
  assert (Hin0 : r0 ∈ picked) by (by apply picked_found).
  destruct Hsome as (fig & about & Hrender & _ & Hrange).
  { intros Hp. rewrite Hp in Hin0. by apply elem_of_nil in Hin0. }
  destruct (max_list (observed picked)) as [m|] eqn:Hmax.
  2:{ apply max_list_None in Hmax.
      assert (Hv : v0 ∈ observed picked) by (apply observed_elem; eauto).
      rewrite Hmax in Hv. by apply elem_of_nil in Hv. }
  exists fig, about, m. split_and!; [done..| |].
  - intros r v Hr Hm Hv.
    apply (proj1 (Forall_forall _ _) (max_list_ge _ _ Hmax)).
    apply observed_elem. exists r. split; [|done]. by apply picked_found.
  - apply max_list_elem, observed_elem in Hmax as (r & Hr & Hv).
    apply picked_found in Hr as [Hr Hm]. by exists r.
Qed.

Lemma chart_y_range_witness :
  let d := returned_value no_frame (@data pandas_stable sample_get) in
  let selected_label := "Child Anemia (% of children under 5)" in
  exists fig about m,
    render d selected_label = OK (Chart fig about) /\
    yaxis_range fig = (0%Q, Some m) /\
    (forall r v, r ∈ rows d -> matching selected_label r ->
                 cell r "value" = JNum v -> (v <= m)%Q) /\
    (exists r, r ∈ rows d /\ matching selected_label r /\ cell r "value" = JNum m).
Proof.
  intros d selected_label.
  apply (chart_y_range d selected_label (default ∅ (rows d !! 0%nat)) 5%Q).
  - vm_compute. exact I.
  - apply list_elem_of_here.
  - apply (list_elem_of_lookup_2 _ 0%nat). vm_compute. reflexivity.
  - vm_compute. exact I.
  - vm_compute. reflexivity.
Defined.

(** The scenario of the two series 5, 7 and 1, 2: the chart's y-axis runs
    from 0 to 7, Ghana's rows come first, each series in ascending year. *)
Example render_two_series :
  let d := returned_value no_frame (@data pandas_stable sample_get) in
  exists fig about,
    render d "Child Anemia (% of children under 5)" = OK (Chart fig about) /\
    yaxis_range fig = (0%Q, Some 7%Q) /\
    (fun r => (cell r "country", year r, cell r "value")) <$> rows (data_frame fig)
    = [ (JStr "GHA", Some 1990%Q, JNum 5); (JStr "GHA", Some 2000%Q, JNum 7);
        (JStr "GHA", None, JNull);
        (JStr "USA", Some 1990%Q, JNum 1); (JStr "USA", Some 2000%Q, JNum 2) ].
Proof. intros d. do 2 eexists. split_and!; vm_compute; reflexivity. Qed.

(** * Further properties of the script *)

(** ** The download stage: failures *)

Lemma for_each_download_raises `{Pandas} fetch
    (ps1 ps2 : list (string * string * string)) (p : string * string * string)
    (e : exn) (dfs : list DataFrame) :
  Forall (fun q => exists df, fetch q.2 q.1.2 = OK df) ps1 ->
  fetch p.2 p.1.2 = Raise e ->
  for_each (ps1 ++ p :: ps2) (fun q => download_one fetch q.1.1 q.1.2 q.2) dfs
  = Raise e.
Proof.
  intros Hok Hraise. revert dfs.
  induction Hok as [|q ps1 (df & Hq) _ IH]; intros dfs.
  - rewrite app_nil_l, for_each_cons. cbv beta.
    replace (download_one fetch p.1.1 p.1.2 p.2 dfs) with (@Raise (list DataFrame) e);
      [done|]. unfold download_one. by rewrite Hraise.
  - rewrite <- app_comm_cons, for_each_cons. cbv beta.
    assert (Hone : exists dfs', download_one fetch q.1.1 q.1.2 q.2 dfs = OK dfs').
    { unfold download_one. rewrite Hq, bind_OK. destruct (negb (empty df)); eauto. }
    destruct Hone as [dfs' ->]. rewrite bind_OK. apply IH.
Qed.

(** X1.  A call that raises ends the download: when the calls before it
    (in loop order) all return and one call raises, [build] raises that
    same exception and no table is built, however many of the other
    calls returned data. *)
Theorem build_raises_first_exception `{Pandas} fetch indicators countries
    (ps1 ps2 : list (string * string * string)) (p : string * string * string)
    (e : exn) :
  calls indicators countries = ps1 ++ p :: ps2 ->
  Forall (fun q => exists df, fetch q.2 q.1.2 = OK df) ps1 ->
  fetch p.2 p.1.2 = Raise e ->
  build fetch indicators countries = Raise e.
Proof.
  intros Hcalls Hok Hraise. unfold build.
  rewrite download_all_calls, Hcalls.
  by rewrite (for_each_download_raises fetch ps1 ps2 p e).
Qed.

Lemma build_raises_first_exception_witness :
  @data pandas_stable flaky_get = Raise ConnectionError.
Proof.
  apply (@build_raises_first_exception pandas_stable (fetch_worldbank_data flaky_get)
           INDICATORS [COUNTRY_GH; COUNTRY_US]
           [("Child Anemia (% of children under 5)", "SH.ANM.CHLD.ZS", "GHA")]
           (drop 2 (calls INDICATORS [COUNTRY_GH; COUNTRY_US]))
           ("Child Anemia (% of children under 5)", "SH.ANM.CHLD.ZS", "USA")).
  - reflexivity.
  - constructor; [|constructor]. eexists. vm_compute. reflexivity.
  - vm_compute. reflexivity.
Defined.

(** X2.  When data came back but no kept frame has a [date] column, line 80
    raises [KeyError] on ["date"]: [build] returns no table. *)
Theorem build_without_date_raises `{Pandas} (F : string -> string -> DataFrame)
    indicators countries :
  (exists p, p ∈ calls indicators countries /\ empty (F p.2 p.1.2) = false) ->
  (forall p, p ∈ calls indicators countries -> "date" ∉ columns (F p.2 p.1.2)) ->
  build (fun c k => OK (F c k)) indicators countries = Raise (KeyError "date").
Proof.
  intros (p & Hp & Hne) Hnodate.
  assert (Hans : answers (fun c k => OK (F c k)) F (calls indicators countries))
    by (by apply Forall_forall).
  rewrite (build_family _ F) by done.
  assert (Hin : assign "indicator_label" (JStr p.1.1) (F p.2 p.1.2)
                ∈ survivors F (calls indicators countries))
    by (apply elem_of_survivors; eauto).
  assert (Hcol : "date" ∉ ⋃ (columns <$> survivors F (calls indicators countries))).
  { intros (cols & Hcols & Hdate)%elem_of_union_list.
    apply list_elem_of_fmap in Hcols as (df & -> & Hdf).
    apply elem_of_survivors in Hdf as (q & Hq & _ & ->).
    cbn [columns assign] in Hdate.
    apply elem_of_union in Hdate as [Hdate%elem_of_singleton | Hdate]; [done|].
    by apply (Hnodate q). }
  destruct (survivors F _) as [|df dfs]; [by apply elem_of_nil in Hin|].
  cbv zeta. by rewrite bool_decide_eq_false_2.
Qed.

Lemma build_without_date_raises_witness :
  @build pandas_stable
    (fun c k => OK (returned (fetch_worldbank_data dateless_get) c k))
    INDICATORS [COUNTRY_GH; COUNTRY_US]
  = Raise (KeyError "date").
Proof.
  apply (@build_without_date_raises pandas_stable
           (returned (fetch_worldbank_data dateless_get))).
  - exists ("Child Anemia (% of children under 5)", "SH.ANM.CHLD.ZS", "GHA").
    split; [|vm_compute; reflexivity].
    apply elem_of_calls. split; apply list_elem_of_here.
  - intros [[label code] country] _. simpl.
    refine (bool_decide_unpack _ _). vm_compute. exact I.
Defined.

(** ** The built table: what every row and the table as a whole satisfy *)

Lemma survivors_rows `{Pandas} F (ps : list (string * string * string)) :
  survivors F ps <> [] -> survivors F ps ≫= rows <> [].
Proof.
  destruct (survivors F ps) as [|df dfs] eqn:Hdfs; [done|]. intros _.
  assert (Hdf : df ∈ survivors F ps) by (rewrite Hdfs; apply list_elem_of_here).
  apply elem_of_survivors in Hdf as (p & _ & Hne & ->).
  unfold empty in Hne. apply orb_false_iff in Hne as [_ Hrows].
  apply bool_decide_eq_false_1 in Hrows.
  csimpl. destruct (rows (F p.2 p.1.2)); [done|]. by csimpl.
Qed.

(** X3.  A table that [build] returns is never empty: it has at least one
    row and a [date] column, so [df.empty] is false on it.  (The empty
    outcome of the download is the [ValueError], not an empty table.) *)
Theorem build_never_empty `{Pandas} fetch indicators countries data :
  build fetch indicators countries = OK data ->
  rows data <> [] /\ "date" ∈ columns data /\ empty data = false.
Proof.
  intros (Hans & Hne & Hdate & ->)%build_OK.
  assert (Hrows : rows (sorted_table
            (survivors (returned fetch) (calls indicators countries))) <> []).
  { intros Hnil. pose proof (sorted_table_perm
      (survivors (returned fetch) (calls indicators countries))) as Hperm.
    rewrite Hnil in Hperm. apply Permutation_nil_l in Hperm.
    symmetry in Hperm. apply fmap_nil_inv in Hperm.
    by apply (survivors_rows _ _ Hne). }
  assert (Hcol : "date" ∈ columns (sorted_table
            (survivors (returned fetch) (calls indicators countries))))
    by (unfold sorted_table; cbn [columns]; by apply elem_of_union_l, elem_of_singleton).
  split_and!; [done..|]. unfold empty.
  rewrite (bool_decide_eq_false_2 (_ = ∅)), (bool_decide_eq_false_2 (_ = [])); [done..|].
  intros Hempty. rewrite Hempty in Hcol. by apply not_elem_of_empty in Hcol.
Qed.

Lemma build_never_empty_witness :
  let d := returned_value no_frame (@data pandas_stable sample_get) in
  rows d <> [] /\ "date" ∈ columns d /\ empty d = false.
Proof.
  intros d.
  apply (@build_never_empty pandas_stable (fetch_worldbank_data sample_get)
           INDICATORS [COUNTRY_GH; COUNTRY_US] d).
  vm_compute. reflexivity.
Defined.

Lemma to_numeric_numeric_or_null `{Pandas} (j : json) :
  numeric_or_null (to_numeric j).
Proof. destruct j; simpl; try done. by destruct (numeric_of_string s). Qed.

(** X4.  After line 80 every [date] cell of the table is a number or null:
    whatever the payload had under [date] -- a string that is not a year, a
    nested object, nothing at all -- has been replaced. *)
Theorem build_dates_numeric_or_null `{Pandas} fetch indicators countries data :
  build fetch indicators countries = OK data ->
  Forall (fun r => Is_true (numeric_or_null (cell r "date"))) (rows data).
Proof.
  intros (_ & _ & _ & ->)%build_OK. rewrite sorted_table_perm.
  apply Forall_fmap, Forall_forall. intros r _. simpl.
  unfold coerce_date, cell at 1. rewrite lookup_insert_eq. simpl.
  apply to_numeric_numeric_or_null.
Qed.

Lemma build_dates_numeric_or_null_witness :
  let d := returned_value no_frame (@data pandas_stable sample_get) in
  Forall (fun r => Is_true (numeric_or_null (cell r "date"))) (rows d).
Proof.
  intros d.
  apply (@build_dates_numeric_or_null pandas_stable (fetch_worldbank_data sample_get)
           INDICATORS [COUNTRY_GH; COUNTRY_US] d).
  vm_compute. reflexivity.
Defined.

(** X5.  Every row of [data] carries, under [indicator_label], the label
    that [INDICATORS] pairs with the code it carries under
    [indicator_code]: the stamps of lines 63 and 76 come from the same
    item of the configuration, whatever the payload had in those
    columns. *)
Theorem data_rows_paired `{Pandas} get d :
  data get = OK d -> Forall paired (rows d).
Proof.
  intros Hdata. apply Forall_forall. intros r Hr.
  destruct (data_row get d Hdata r Hr)
    as (label & code & _ & _ & Hspec & _ & _ & _ & Hl & Hk & _).
  by exists label, code.
Qed.

Lemma data_rows_paired_witness :
  Forall paired (rows (returned_value no_frame (@data pandas_stable sample_get))).
Proof.
  apply (@data_rows_paired pandas_stable sample_get). vm_compute. reflexivity.
Defined.

(** ** Where the rows come from *)

Lemma as_record_Some (j : json) (fields : list (string * json)) :
  as_record j = Some fields -> j = JObj fields.
Proof. destruct j; simpl; try done. by intros [= ->]. Qed.

Lemma pd_DataFrame_rows (payload : json) (df : DataFrame) (r : gmap string json) :
  pd_DataFrame payload = OK df -> r ∈ rows df ->
  exists items fields,
    payload = JArr items /\ JObj fields ∈ items /\ r = dict_of fields.
Proof.
  destruct payload as [| | | |items|]; simpl; try done.
  - intros [= <-] Hr. by apply elem_of_nil in Hr.
  - destruct (mapM as_record items) as [recs|] eqn:Hrecs; [|done].
    intros [= <-] Hr. simpl in Hr.
    apply list_elem_of_fmap in Hr as (fields & -> & Hfields).
    exists items, fields. split_and!; [done| |done].
    apply mapM_Some in Hrecs.
    apply list_elem_of_lookup in Hfields as [i Hi].
    destruct (Forall2_lookup_r _ _ _ _ _ Hrecs Hi) as (j & Hj & Hrec).
    apply as_record_Some in Hrec as ->. by eapply list_elem_of_lookup_2.
Qed.

(** A row of a fetched frame is an object of the data array of the reply,
    with the two stamps written over it. *)
Lemma fetch_row_origin get country code df (r : gmap string json) :
  fetch_worldbank_data get country code = OK df -> r ∈ rows df ->
  exists status items payload fields,
    get (worldbank_url country code) = Replied status (Some (JArr items)) /\
    items !! 1%nat = Some (JArr payload) /\ JObj fields ∈ payload /\
    r = <["country" := JStr country]> (<["indicator_code" := JStr code]> (dict_of fields)).
Proof.
  unfold fetch_worldbank_data, get_json.
  destruct (get (worldbank_url country code)) as [|status [response|]] eqn:Hget;
    [done| |done].
  rewrite bind_OK. destruct (_ || _).
  { intros [= <-] Hr. by apply elem_of_nil in Hr. }
  destruct response as [| | | |items|]; try done. simpl.
  destruct (items !! 1%nat) as [payload|] eqn:Hitem; [|done]. rewrite bind_OK.
  destruct (pd_DataFrame payload) as [df0|] eqn:Hdf0; [|done]. rewrite bind_OK.
  intros [= <-] Hr. simpl in Hr.
  apply list_elem_of_fmap in Hr as (r1 & -> & Hr1).
  apply list_elem_of_fmap in Hr1 as (r0 & -> & Hr0).
  destruct (pd_DataFrame_rows _ _ _ Hdf0 Hr0) as (its & fields & -> & Hin & ->).
  by exists status, items, its, fields.
Qed.

(** X6.  Every row of [data] is an object of the data array sent in reply
    to the request for the row's own country and indicator code, and it
    differs from that object in the four columns the script writes and
    nowhere else: in particular its [value] is the payload's. *)
Theorem data_row_provenance `{Pandas} get d (r : gmap string json) :
  data get = OK d -> r ∈ rows d ->
  exists country code status items payload fields,
    cell r "country" = JStr country /\ cell r "indicator_code" = JStr code /\
    get (worldbank_url country code) = Replied status (Some (JArr items)) /\
    items !! 1%nat = Some (JArr payload) /\ JObj fields ∈ payload /\
    forall c, c ∉ own_columns -> r !! c = dict_of fields !! c.
Proof.
  intros Hdata Hr.
  destruct (build_row_origin _ _ _ _ _ Hdata Hr)
    as (label & code & country & df & r0 & _ & _ & Hfetch & _ & Hr0 & ->).
  destruct (fetch_row_origin _ _ _ _ _ Hfetch Hr0)
    as (status & items & payload & fields & Hget & Hitem & Hin & ->).
  exists country, code, status, items, payload, fields.
  split_and!; try done.
  - unfold cell, coerce_date. by simplify_map_eq.
  - unfold cell, coerce_date. by simplify_map_eq.
  - intros c Hc. unfold own_columns in Hc.
    rewrite !not_elem_of_cons in Hc. destruct Hc as (? & ? & ? & ? & _).
    unfold coerce_date. by rewrite !lookup_insert_ne.
Qed.

Lemma data_row_provenance_witness :
  let d := returned_value no_frame (@data pandas_stable sample_get) in
  let r := default ∅ (rows d !! 2%nat) in
  exists country code status items payload fields,
    cell r "country" = JStr country /\ cell r "indicator_code" = JStr code /\
    sample_get (worldbank_url country code) = Replied status (Some (JArr items)) /\
    items !! 1%nat = Some (JArr payload) /\ JObj fields ∈ payload /\
    forall c, c ∉ own_columns -> r !! c = dict_of fields !! c.
Proof.
  intros d r. apply (@data_row_provenance pandas_stable sample_get d r).
  - vm_compute. reflexivity.
  - apply (list_elem_of_lookup_2 _ 2%nat). vm_compute. reflexivity.
Defined.

(** ** fetch_worldbank_data: the series without observations, the metadata *)

(** X7.  For a series without observations the API replies [[meta, null]].
    The call then returns a frame with the two stamped columns and no row;
    the frame is empty, and the loop body leaves [dfs] as it was. *)
Theorem fetch_null_payload_skipped `{Pandas} get country code status meta more label
    (dfs : list DataFrame) :
  get (worldbank_url country code)
    = Replied status (Some (JArr (meta :: JNull :: more))) ->
  (exists df,
     fetch_worldbank_data get country code = OK df /\
     rows df = [] /\ columns df = {["country"; "indicator_code"]} /\ empty df = true) /\
  download_one (fetch_worldbank_data get) label code country dfs = OK dfs.
Proof.
  intros Hget.
  assert (Hfetch : fetch_worldbank_data get country code
            = OK (assign "country" (JStr country)
                    (assign "indicator_code" (JStr code) no_frame))).
  { unfold fetch_worldbank_data. rewrite (get_json_replied _ _ _ _ Hget).
    cbn -[assign]. by rewrite bool_decide_eq_false_2 by lia. }
  split.
  - eexists. split; [exact Hfetch|]. split_and!; [done| |].
    + cbn [columns assign no_frame]. set_solver.
    + unfold empty. cbn [rows assign no_frame fmap list_fmap].
      by rewrite (bool_decide_eq_true_2 (_ = [])), orb_true_r.
  - unfold download_one. rewrite Hfetch, bind_OK.
    unfold empty. cbn [rows assign no_frame fmap list_fmap].
    by rewrite (bool_decide_eq_true_2 (_ = [])), orb_true_r.
Qed.

Lemma fetch_null_payload_skipped_witness :
  (exists df,
     fetch_worldbank_data (fun _ => Replied 200 (Some no_observations))
       "GHA" "SE.TER.CUAT.BA.ZS" = OK df /\
     rows df = [] /\ columns df = {["country"; "indicator_code"]} /\ empty df = true) /\
  @download_one (fetch_worldbank_data (fun _ => Replied 200 (Some no_observations)))
    "Educational attainment (Bachelor's or equivalent) (%)" "SE.TER.CUAT.BA.ZS" "GHA"
    [no_frame] = OK [no_frame].
Proof.
  apply (@fetch_null_payload_skipped pandas_stable
           (fun _ => Replied 200 (Some no_observations)) "GHA" "SE.TER.CUAT.BA.ZS"
           200 (JObj [("page", JNum 0); ("total", JNum 0)]) []).
  reflexivity.
Defined.

(** X8.  Of a list reply only the second element is read.  The metadata
    object (page, pages, total), anything after the data array and the
    status make no difference to the frame: two replies with the same data
    array give the same frame. *)
Theorem fetch_reads_second_element_only get country code status meta payload more
    get' status' meta' more' :
  get (worldbank_url country code)
    = Replied status (Some (JArr (meta :: payload :: more))) ->
  get' (worldbank_url country code)
    = Replied status' (Some (JArr (meta' :: payload :: more'))) ->
  fetch_worldbank_data get country code = fetch_worldbank_data get' country code.
Proof.
  intros Hget Hget'. unfold fetch_worldbank_data.
  rewrite (get_json_replied _ _ _ _ Hget), (get_json_replied _ _ _ _ Hget').
  cbn -[assign pd_DataFrame]. by rewrite !bool_decide_eq_false_2 by lia.
Qed.

Lemma fetch_reads_second_element_only_witness :
  fetch_worldbank_data
    (fun _ => Replied 200
       (Some (JArr [JObj [("page", JNum 1); ("pages", JNum 3)];
                    JArr [observation "2001" (JNum 4)]])))
    "USA" "SE.SEC.ENRR"
  = fetch_worldbank_data
      (fun _ => Replied 206
         (Some (JArr [JNull; JArr [observation "2001" (JNum 4)]; JStr "more"])))
      "USA" "SE.SEC.ENRR".
Proof.
  apply (fetch_reads_second_element_only _ "USA" "SE.SEC.ENRR" 200
           (JObj [("page", JNum 1); ("pages", JNum 3)])
           (JArr [observation "2001" (JNum 4)]) []
           _ 206 JNull [JStr "more"]); reflexivity.
Defined.

(** ** The series of the chart *)

Lemma ascending_filter_strong {A : Type} (key : A -> option Q) (P : A -> Prop)
    `{!forall a, Decision (P a)} (l : list A) (years : list Q) (n : nat) :
  key <$> l = (Some <$> years) ++ replicate n None ->
  StronglySorted Qle years ->
  exists (years' : list Q) (n' : nat),
    key <$> filter P l = (Some <$> years') ++ replicate n' None /\
    StronglySorted Qle years' /\ years' ⊆ years.
Proof.
  revert years n. induction l as [|a l IH]; intros years n Hkeys Hsorted.
  - exists [], 0%nat. split_and!; [done | apply SSorted_nil | apply list_subseteq_nil].
  - destruct years as [|y ys]; csimpl in Hkeys.
    + destruct n as [|n]; [done|]. simpl in Hkeys. injection Hkeys as Ha Hl.
      destruct (IH [] n Hl Hsorted) as (years' & n' & Hf & Hs & Hsub).
      assert (years' = []) as ->.
      { destruct years' as [|q ?]; [done|].
        by destruct (not_elem_of_nil q (Hsub q (list_elem_of_here _ _))). }
      destruct (decide (P a)).
      * exists [], (S n'). rewrite filter_cons_True by done. csimpl.
        rewrite Ha, Hf. split_and!; [done | apply SSorted_nil | apply list_subseteq_nil].
      * exists [], n'. rewrite filter_cons_False by done.
        split_and!; [done | apply SSorted_nil | apply list_subseteq_nil].
    + injection Hkeys as Ha Hl. apply StronglySorted_inv in Hsorted as [Hs Hy].
      destruct (IH ys n Hl Hs) as (years' & n' & Hf & Hs' & Hsub).
      destruct (decide (P a)).
      * exists (y :: years'), n'. rewrite filter_cons_True by done. csimpl.
        rewrite Ha, Hf. split_and!; [done | |].
        -- constructor; [done|]. apply Forall_forall. intros q Hq.
           by apply (proj1 (Forall_forall _ _) Hy), Hsub.
        -- intros q [-> | Hq]%elem_of_cons; [apply list_elem_of_here|].
           by apply list_elem_of_further, Hsub.
      * exists years', n'. rewrite filter_cons_False by done. split_and!; [done..|].
        intros q Hq. by apply list_elem_of_further, Hsub.
Qed.

(** Dropping rows keeps the years in order. *)
Lemma ascending_filter (P : gmap string json -> Prop) `{!forall r, Decision (P r)}
    (l : list (gmap string json)) :
  ascending_nulls_last (year <$> l) -> ascending_nulls_last (year <$> filter P l).
Proof.
  intros (years & n & Hkeys & Hsorted).
  destruct (ascending_filter_strong year P l years n Hkeys) as (ys & m & Hf & Hs & _).
  { apply Sorted.Sorted_StronglySorted; [|done]. intros a b c. apply Qle_trans. }
  exists ys, m. split; [done|]. by apply Sorted.StronglySorted_Sorted.
Qed.

Lemma where_eq_inv (c v : string) (df df' : DataFrame) :
  where_eq c v df = OK df' ->
  c ∈ columns df /\
  df' = mkFrame (columns df) (filter (fun r => eq_str v (cell r c)) (rows df)).
Proof.
  unfold where_eq, column. case_bool_decide; [|done]. rewrite bind_OK.
  by intros [= <-].
Qed.

Lemma where_eq_KeyError (c v : string) (df : DataFrame) :
  c ∉ columns df -> where_eq c v df = Raise (KeyError c).
Proof. intros Hc. unfold where_eq, column. by rewrite bool_decide_eq_false_2. Qed.

(** The two views are rows of the table, in the table's order. *)
Lemma selection_rows (d gh us : DataFrame) (selected_label : string) :
  selection d selected_label = OK (gh, us) ->
  exists code,
    getitem INDICATORS selected_label = OK code /\
    rows gh = filter (fun r => eq_str code (cell r "indicator_code"))
                (filter (fun r => eq_str COUNTRY_GH (cell r "country")) (rows d)) /\
    rows us = filter (fun r => eq_str code (cell r "indicator_code"))
                (filter (fun r => eq_str COUNTRY_US (cell r "country")) (rows d)).
Proof.
  unfold selection.
  destruct (where_eq "country" COUNTRY_GH d) as [ghana|] eqn:Hgh; [|done].
  rewrite bind_OK.
  destruct (where_eq "country" COUNTRY_US d) as [usa|] eqn:Hus; [|done].
  rewrite bind_OK.
  destruct (getitem INDICATORS selected_label) as [code|] eqn:Hcode; [|done].
  rewrite bind_OK.
  destruct (where_eq "indicator_code" code ghana) as [gh'|] eqn:Hgh'; [|done].
  rewrite bind_OK.
  destruct (where_eq "indicator_code" code usa) as [us'|] eqn:Hus'; [|done].
  rewrite bind_OK. intros [= <- <-]. exists code. split; [done|].
  apply where_eq_inv in Hgh as [_ ->], Hus as [_ ->].
  apply where_eq_inv in Hgh' as [_ ->], Hus' as [_ ->]. done.
Qed.

(** X9.  Each of the two views drawn as a line lists its rows in ascending
    year, rows with a null year last: the filters of lines 83-112 keep the
    order [sort_values] gave the table. *)
Theorem series_in_year_order `{Pandas} get d (selected_label : string) gh us :
  data get = OK d -> selection d selected_label = OK (gh, us) ->
  ascending_nulls_last (year <$> rows gh) /\
  ascending_nulls_last (year <$> rows us).
Proof.
  intros Hdata Hsel.
  assert (Hd : ascending_nulls_last (year <$> rows d)).
  { apply build_OK in Hdata as (_ & _ & _ & ->). apply sorted_table_years. }
  destruct (selection_rows _ _ _ _ Hsel) as (code & _ & -> & ->).
  split; by do 2 apply ascending_filter.
Qed.

Lemma series_in_year_order_witness :
  let d := returned_value no_frame (@data pandas_stable sample_get) in
  let sel := returned_value (no_frame, no_frame)
               (selection d "Child Anemia (% of children under 5)") in
  ascending_nulls_last (year <$> rows sel.1) /\
  ascending_nulls_last (year <$> rows sel.2).
Proof.
  intros d sel.
  apply (@series_in_year_order pandas_stable sample_get d
           "Child Anemia (% of children under 5)" sel.1 sel.2).
  - vm_compute. reflexivity.
  - vm_compute. reflexivity.
Defined.

(** ** render: missing keys *)

Lemma getitem_missing {V : Type} (d : list (string * V)) (k : string) :
  k ∉ d.*1 -> getitem d k = Raise (KeyError k).
Proof.
  induction d as [|[k' v] d IH]; [done|]. csimpl.
  intros [Hk Hd]%not_elem_of_cons. rewrite bool_decide_eq_false_2 by done.
  by apply IH.
Qed.

(** X10.  The chart stage reads three columns and one key of the
    configuration, and the first one that is missing, in the order the
    script reaches them, raises [KeyError]: [country] (so also on
    [pd.DataFrame()], the table without columns), then the selected label in
    [INDICATORS], then [indicator_code], then [value]. *)
Theorem render_missing_key (d : DataFrame) (selected_label : string) :
  ("country" ∉ columns d ->
   render d selected_label = Raise (KeyError "country")) /\
  ("country" ∈ columns d -> selected_label ∉ INDICATORS.*1 ->
   render d selected_label = Raise (KeyError selected_label)) /\
  ("country" ∈ columns d -> selected_label ∈ INDICATORS.*1 ->
   "indicator_code" ∉ columns d ->
   render d selected_label = Raise (KeyError "indicator_code")) /\
  ("country" ∈ columns d -> selected_label ∈ INDICATORS.*1 ->
   "indicator_code" ∈ columns d -> "value" ∉ columns d ->
   render d selected_label = Raise (KeyError "value")).
Proof.
  unfold render, selection. split_and!.
  - intros Hc. rewrite !(where_eq_KeyError "country") by done. reflexivity.
  - intros Hc Hl. rewrite !(where_eq_OK "country") by done. rewrite !bind_OK.
    rewrite (getitem_missing INDICATORS) by done. reflexivity.
  - intros Hc Hl Hk. rewrite !(where_eq_OK "country") by done. rewrite !bind_OK.
    destruct (getitem_label _ Hl) as [code ->]. rewrite bind_OK.
    rewrite !(where_eq_KeyError "indicator_code") by done. reflexivity.
  - intros Hc Hl Hk Hv. rewrite !(where_eq_OK "country") by done. rewrite !bind_OK.
    destruct (getitem_label _ Hl) as [code ->]. rewrite bind_OK.
    rewrite !(where_eq_OK "indicator_code") by done. rewrite !bind_OK.
    cbn [concat fst snd]. rewrite bind_OK. unfold column. cbn [columns].
    rewrite bool_decide_eq_false_2; [done|]. csimpl.
    intros [Hin | [Hin | Hin%not_elem_of_empty]%elem_of_union]%elem_of_union; done.
Qed.

Lemma render_missing_key_witness :
  render no_frame "GDP per Capita (USD)" = Raise (KeyError "country") /\
  render (mkFrame {["country"]} []) "GDP" = Raise (KeyError "GDP") /\
  render (mkFrame {["country"]} []) "GDP per Capita (USD)"
    = Raise (KeyError "indicator_code") /\
  render (mkFrame {["country"; "indicator_code"]} []) "GDP per Capita (USD)"
    = Raise (KeyError "value").
Proof.
  split_and!.
  - apply (proj1 (render_missing_key no_frame "GDP per Capita (USD)")).
    apply not_elem_of_empty.
  - apply (proj1 (proj2 (render_missing_key (mkFrame {["country"]} []) "GDP"))).
    + refine (bool_decide_unpack _ _). vm_compute. exact I.
    + refine (bool_decide_unpack _ _). vm_compute. exact I.
  - apply (proj1 (proj2 (proj2 (render_missing_key (mkFrame {["country"]} [])
                                  "GDP per Capita (USD)")))).
    + refine (bool_decide_unpack _ _). vm_compute. exact I.
    + do 4 apply list_elem_of_further. apply list_elem_of_here.
    + refine (bool_decide_unpack _ _). vm_compute. exact I.
  - apply (proj2 (proj2 (proj2 (render_missing_key
             (mkFrame {["country"; "indicator_code"]} []) "GDP per Capita (USD)")))).
    + refine (bool_decide_unpack _ _). vm_compute. exact I.
    + do 4 apply list_elem_of_further. apply list_elem_of_here.
    + refine (bool_decide_unpack _ _). vm_compute. exact I.
    + refine (bool_decide_unpack _ _). vm_compute. exact I.
Defined.

(** ** render on a table of observation records *)




(** A row of a frame that a call returned non-empty is in the built table,
    with its label stamped and its date coerced. *)
Lemma build_row_of_fetch `{Pandas} fetch indicators countries data
    (label code country : string) (df : DataFrame) (r0 : gmap string json) :
  build fetch indicators countries = OK data ->
  (label, code) ∈ indicators -> country ∈ countries ->
  fetch country code = OK df -> empty df = false -> r0 ∈ rows df ->
  coerce_date (<["indicator_label" := JStr label]> r0) ∈ rows data.
Proof.
  intros (_ & _ & _ & ->)%build_OK Hspec Hcountry Hfetch Hne Hr0.
  rewrite sorted_table_perm. apply list_elem_of_fmap.
  exists (<["indicator_label" := JStr label]> r0). split; [done|].
  apply list_elem_of_bind. exists (assign "indicator_label" (JStr label) df). split.
  - cbn [rows assign]. apply list_elem_of_fmap. by exists r0.
  - apply elem_of_survivors. exists (label, code, country). simpl.
    unfold returned. rewrite Hfetch. split_and!; [|done..].
    by apply elem_of_calls.
Qed.

(** X12.  For the table the download built, the warning "No data
    available" is shown for an indicator exactly when both of its calls,
    Ghana's and the USA's, came back empty: data for one country alone is
    enough for a chart. *)
Theorem render_NoData_iff_nothing_fetched `{Pandas} get d
    (selected_label code : string) (df_gh df_us : DataFrame) :
  data get = OK d -> is_dataset d -> (selected_label, code) ∈ INDICATORS ->
  fetch_worldbank_data get COUNTRY_GH code = OK df_gh ->
  fetch_worldbank_data get COUNTRY_US code = OK df_us ->
  (render d selected_label = OK NoData <->
   empty df_gh = true /\ empty df_us = true).
Proof.
  intros Hdata Hd Hsel Hgh Hus.
  assert (Hlabel : selected_label ∈ INDICATORS.*1)
    by (apply list_elem_of_fmap; by exists (selected_label, code)).
  destruct (render_dataset d selected_label Hd Hlabel) as [Hnone Hsome].
  set (picked := _ ++ _) in Hnone, Hsome.
  assert (Hdrawn : forall country df,
            country ∈ [COUNTRY_GH; COUNTRY_US] ->
            fetch_worldbank_data get country code = OK df -> empty df = false ->
            render d selected_label <> OK NoData).
  { intros country df Hcountry Hfetch Hne Hrender.
    assert (Hrows : exists r0, r0 ∈ rows df).
    { unfold empty in Hne. apply orb_false_iff in Hne as [_ Hrows].
      apply bool_decide_eq_false_1 in Hrows.
      destruct (rows df) as [|r0 ?]; [done|]. exists r0. apply list_elem_of_here. }
    destruct Hrows as [r0 Hr0].
    pose proof (build_row_of_fetch _ _ _ _ _ _ _ _ _
                  Hdata Hsel Hcountry Hfetch Hne Hr0) as Hr.
    pose proof (proj1 (Forall_forall _ _) (fetch_stamps _ _ _ _ Hfetch) _ Hr0)
      as [Hstamp _].
    assert (Hpicked : coerce_date (<["indicator_label" := JStr selected_label]> r0)
                      ∈ picked).
    { apply picked_found. split; [done|]. unfold matching, labelled, of_country, cell.
      assert (Hlab : coerce_date (<["indicator_label" := JStr selected_label]> r0)
                       !! "indicator_label" = Some (JStr selected_label)).
      { unfold coerce_date. rewrite lookup_insert_ne by done. apply lookup_insert_eq. }
      assert (Hcty : coerce_date (<["indicator_label" := JStr selected_label]> r0)
                       !! "country" = Some (JStr country)).
      { unfold coerce_date. by rewrite !lookup_insert_ne by done. }
      rewrite Hlab, Hcty. simpl.
      rewrite bool_decide_eq_true_2 by done. simpl.
      apply elem_of_cons in Hcountry as [-> | Hcountry].
      - by rewrite bool_decide_eq_true_2.
      - apply list_elem_of_singleton in Hcountry as ->.
        rewrite (bool_decide_eq_true_2 (COUNTRY_US = COUNTRY_US)) by done.
        by rewrite orb_true_r. }
    destruct Hsome as (fig & about & Hchart & _).
    { intros Hnil. rewrite Hnil in Hpicked. by apply elem_of_nil in Hpicked. }
    congruence. }
  split.
  - intros Hrender. split.
    + destruct (empty df_gh) eqn:Hne; [done|]. exfalso.
      apply (Hdrawn COUNTRY_GH df_gh); [apply list_elem_of_here | done..].
    + destruct (empty df_us) eqn:Hne; [done|]. exfalso.
      apply (Hdrawn COUNTRY_US df_us);
        [apply list_elem_of_further, list_elem_of_here | done..].
  - intros [Hegh Heus]. apply Hnone.
    destruct picked as [|r rs] eqn:Hpicked; [done|]. exfalso.
    assert (Hr : r ∈ picked) by (rewrite Hpicked; apply list_elem_of_here).
    apply picked_found in Hr as [Hr Hmatch].
    destruct (data_row get d Hdata r Hr)
      as (label' & code' & country' & df & Hspec & Hcountry & Hfetch & Hne
          & Hl & Hk & Hc).
    unfold matching, labelled in Hmatch. rewrite Hl in Hmatch. simpl in Hmatch.
    apply andb_True in Hmatch as [Hlab _]. apply bool_decide_spec in Hlab. subst label'.
    assert (code' = code) as ->
      by (by eapply NoDup_fst_inj; [apply INDICATORS_labels_NoDup|..]).
    destruct Hcountry as [-> | ->]; congruence.
Qed.

Lemma render_NoData_iff_nothing_fetched_witness :
  let d := returned_value no_frame (@data pandas_stable sample_get) in
  render d "GDP per Capita (USD)" = OK NoData <->
  empty no_frame = true /\ empty no_frame = true.
Proof.
  intros d.
  apply (@render_NoData_iff_nothing_fetched pandas_stable sample_get d
           "GDP per Capita (USD)" "NY.GDP.PCAP.CD" no_frame no_frame).
  - vm_compute. reflexivity.
  - vm_compute. exact I.
  - do 4 apply list_elem_of_further. apply list_elem_of_here.
  - vm_compute. reflexivity.
  - vm_compute. reflexivity.
Defined.

(** ** Nothing lost, nothing doubled *)

Lemma filter_all {A : Type} (P : A -> Prop) `{!forall a, Decision (P a)} (l : list A) :
  Forall P l -> filter P l = l.
Proof.
  induction 1 as [|a l Ha _ IH]; [done|]. by rewrite filter_cons_True, IH.
Qed.

Lemma filter_none {A : Type} (P : A -> Prop) `{!forall a, Decision (P a)} (l : list A) :
  Forall (fun a => ~ P a) l -> filter P l = [].
Proof.
  induction 1 as [|a l Ha _ IH]; [done|]. by rewrite filter_cons_False.
Qed.

Lemma filter_fmap_length {A B : Type} (f : A -> B) (P : B -> Prop) (Q : A -> Prop)
    `{!forall b, Decision (P b), !forall a, Decision (Q a)} (l : list A) :
  (forall a, P (f a) <-> Q a) ->
  length (filter P (f <$> l)) = length (filter Q l).
Proof.
  intros HPQ. induction l as [|a l IH]; [done|]. csimpl.
  destruct (decide (Q a)) as [Ha | Ha].
  - rewrite (filter_cons_True P) by (by apply HPQ).
    rewrite (filter_cons_True Q) by done. simpl. by rewrite IH.
  - rewrite (filter_cons_False P) by (by rewrite HPQ).
    by rewrite (filter_cons_False Q) by done.
Qed.

#[local] Instance of_pair_dec country code r : Decision (of_pair country code r).
Proof. unfold of_pair. apply _. Defined.

Lemma of_pair_stamped (country code c k : string) (r : gmap string json) :
  r !! "country" = Some (JStr c) -> r !! "indicator_code" = Some (JStr k) ->
  of_pair country code r <-> c = country /\ k = code.
Proof.
  intros Hc Hk. unfold of_pair, cell. rewrite Hc, Hk. simpl.
  by rewrite !bool_decide_spec.
Qed.

Lemma fetch_empty_rows get country code df :
  fetch_worldbank_data get country code = OK df -> empty df = true -> rows df = [].
Proof.
  unfold fetch_worldbank_data. destruct (get_json _ _) as [response|]; [|done].
  rewrite bind_OK. destruct (_ || _).
  { by intros [= <-]. }
  destruct (item response 1) as [payload|]; [|done]. rewrite bind_OK.
  destruct (pd_DataFrame payload) as [df0|]; [|done]. rewrite bind_OK.
  intros [= <-]. unfold empty. cbn [columns rows assign].
  rewrite (bool_decide_eq_false_2 (_ = ∅)).
  - simpl. by intros ?%bool_decide_eq_true_1.
  - intros Hempty.
    assert (Hin : "country" ∈ ({["country"]} ∪ ({["indicator_code"]} ∪ columns df0)
                               : gset string))
      by (by apply elem_of_union_l, elem_of_singleton).
    rewrite Hempty in Hin. by apply not_elem_of_empty in Hin.
Qed.

(** Among the rows kept by the loops, those of one pair are the rows of
    that pair's frame. *)
Lemma survivors_of_pair get (country code : string)
    (ps : list (string * string * string)) :
  NoDup ((fun p => (p.2, p.1.2)) <$> ps) ->
  Forall (fun p => exists df, fetch_worldbank_data get p.2 p.1.2 = OK df) ps ->
  length (filter (of_pair country code)
            (survivors (returned (fetch_worldbank_data get)) ps ≫= rows))
  = if decide ((country, code) ∈ (fun p => (p.2, p.1.2)) <$> ps)
    then length (rows (returned (fetch_worldbank_data get) country code))
    else 0%nat.
Proof.
  intros Hnodup Hok. induction Hok as [|p ps [df Hp] _ IH]; [done|].
  csimpl in Hnodup. apply NoDup_cons in Hnodup as [Hfresh Hnodup].
  unfold survivors in *. csimpl. rewrite bind_app, filter_app, length_app, (IH Hnodup).
  assert (Hret : returned (fetch_worldbank_data get) p.2 p.1.2 = df)
    by (unfold returned; by rewrite Hp).
  assert (Hstamped : Forall (fun r => r !! "country" = Some (JStr p.2) /\
                                      r !! "indicator_code" = Some (JStr p.1.2))
                       (kept p.1.1 df ≫= rows)).
  { unfold kept. destruct (empty df); csimpl; [constructor|]. rewrite app_nil_r.
    apply Forall_fmap. eapply Forall_impl; [by apply (fetch_stamps _ _ _ _ Hp)|].
    intros r [Hc Hk]. simpl. by rewrite !lookup_insert_ne by done. }
  rewrite Hret. destruct (decide ((p.2, p.1.2) = (country, code))) as [Heq | Hne].
  - injection Heq as <- <-.
    destruct (decide ((p.2, p.1.2) ∈ (fun p0 : string * string * string =>
                                        (p0.2, p0.1.2)) <$> ps)) as [Hin | _];
      [done|].
    destruct (decide ((p.2, p.1.2) ∈ (p.2, p.1.2) :: _)) as [_ | Hnin];
      [|by destruct Hnin; apply list_elem_of_here].
    rewrite filter_all.
    2:{ eapply Forall_impl; [exact Hstamped|]. intros r [Hrc Hrk].
        by apply (of_pair_stamped _ _ _ _ _ Hrc Hrk). }
    rewrite Nat.add_0_r, Hret.
    unfold kept. destruct (empty df) eqn:Hempty; csimpl.
    + by rewrite (fetch_empty_rows _ _ _ _ Hp Hempty).
    + by rewrite app_nil_r, length_fmap.
  - rewrite filter_none.
    2:{ eapply Forall_impl; [exact Hstamped|]. intros r [Hrc Hrk] Hr.
        apply (of_pair_stamped _ _ _ _ _ Hrc Hrk) in Hr as [<- <-]. done. }
    simpl.
    destruct (decide ((country, code) ∈ (fun p0 : string * string * string =>
                                           (p0.2, p0.1.2)) <$> ps)) as [Hin | Hnin];
      destruct (decide ((country, code) ∈ (p.2, p.1.2) :: _)) as [Hin' | Hnin'];
      try done.
    + destruct Hnin'. by apply list_elem_of_further.
    + apply elem_of_cons in Hin' as [Heq | Hin']; [by destruct Hne | done].
Qed.

(** X13.  The table holds, for every configured indicator and each of the
    two countries, exactly as many rows stamped with that country and that
    code as the call for the pair returned: sorting and coercion neither
    lose nor double a record, and no other call contributes to the pair. *)
Theorem data_rows_per_pair `{Pandas} get d (label code country : string)
    (df : DataFrame) :
  data get = OK d -> (label, code) ∈ INDICATORS ->
  country ∈ [COUNTRY_GH; COUNTRY_US] ->
  fetch_worldbank_data get country code = OK df ->
  length (filter (of_pair country code) (rows d)) = length (rows df).
Proof.
  intros Hdata Hspec Hcountry Hfetch.
  pose proof Hdata as (Hans & _ & _ & ->)%build_OK.
  rewrite sorted_table_perm.
  rewrite (filter_fmap_length coerce_date _ (of_pair country code)).
  2:{ intros r. unfold of_pair, cell, coerce_date. by rewrite !lookup_insert_ne by done. }
  rewrite survivors_of_pair.
  - rewrite decide_True.
    + unfold returned. by rewrite Hfetch.
    + apply list_elem_of_fmap. exists (label, code, country).
      split; [done|]. by apply elem_of_calls.
  - refine (bool_decide_unpack _ _). vm_compute. exact I.
  - eapply Forall_impl; [exact Hans|]. intros p Hp. simpl in Hp. eauto.
Qed.

Lemma data_rows_per_pair_witness :
  let d := returned_value no_frame (@data pandas_stable sample_get) in
  let df := returned_value no_frame
              (fetch_worldbank_data sample_get "GHA" "SH.ANM.CHLD.ZS") in
  length (filter (of_pair "GHA" "SH.ANM.CHLD.ZS") (rows d)) = length (rows df).
Proof.
  intros d df.
  apply (@data_rows_per_pair pandas_stable sample_get d
           "Child Anemia (% of children under 5)" "SH.ANM.CHLD.ZS" "GHA" df).
  - vm_compute. reflexivity.
  - apply list_elem_of_here.
  - apply list_elem_of_here.
  - vm_compute. reflexivity.
Defined.
